(** * pyRcCar: joystick decoding, dispatch and PWM pulse translation

    A shallow embedding of [arduino_part.py] and [joystick_part.py].

    Python [float] is IEEE-754 binary64 and is embedded as Rocq's primitive
    [float]; Python [int] is embedded as [Z].  A Python exception is an
    explicit [Raise] result.  Objects are records and every method takes the
    object and returns the updated one. *)

From Stdlib Require Import ZArith Zpower QArith Qround Lqa List String Ascii.
From Stdlib Require Import Bool Lia.
From Stdlib Require Import Floats.
From stdpp Require Import base gmap strings.
Import ListNotations.

Local Open Scope Z_scope.

(* Decimal literals such as 0.01 and 0.05 denote the nearest binary64 value,
   as they do in Python. *)
Set Warnings "-inexact-float".

(** ** Python run-time values and exceptions *)

Inductive exn : Type :=
| ZeroDivisionError
| OverflowError
| ValueError
| IndexError
| StructError
| WriteError (attempt : nat).

Inductive result (A : Type) : Type :=
| Ok (a : A)
| Raise (e : exn).

Arguments Ok {A} a.
Arguments Raise {A} e.

Definition bind {A B : Type} (r : result A) (k : A -> result B) : result B :=
  match r with
  | Ok a => k a
  | Raise e => Raise e
  end.

Notation "'let*' x ':=' r 'in' k" := (bind r (fun x => k))
  (at level 10, x name, r at level 100, k at level 200).

(** A number as Python has it: an [int] of any size or a binary64 [float]. *)
Inductive pynum : Type :=
| PyInt (z : Z)
| PyFloat (f : float).

Module Py.

(** [float(z)] rounded to nearest, ties to even, before the overflow test. *)
Definition float_of_Z (z : Z) : float :=
  SF2Prim (binary_normalize prec emax z 0 false).

(** The implicit [int -> float] conversion of mixed arithmetic; an [int]
    beyond the binary64 range raises [OverflowError]. *)
Definition int_to_float (z : Z) : result float :=
  let f := float_of_Z z in
  if is_infinity f then Raise OverflowError else Ok f.

Definition Z2SF (z : Z) : spec_float :=
  match z with
  | Z0 => S754_zero false
  | Zpos p => S754_finite false p 0
  | Zneg p => S754_finite true p 0
  end.

(** [a / b] on two [int]s: the correctly rounded quotient. *)
Definition int_truediv (a b : Z) : result float :=
  if b =? 0 then Raise ZeroDivisionError
  else
    let q := SF2Prim (SF64div (Z2SF a) (Z2SF b)) in
    if is_infinity q then Raise OverflowError else Ok q.

(** [a / b] on two [float]s. *)
Definition float_truediv (a b : float) : result float :=
  if (b =? 0)%float then Raise ZeroDivisionError else Ok (a / b)%float.

(** [x - k] with [k] an [int]. *)
Definition sub_int (x : pynum) (k : Z) : result pynum :=
  match x with
  | PyInt a => Ok (PyInt (a - k))
  | PyFloat f => let* kf := int_to_float k in Ok (PyFloat (f - kf)%float)
  end.

(** [d / r] with [r] a [float]: [d] is converted first, then the divisor is
    tested. *)
Definition truediv_float (d : pynum) (r : float) : result float :=
  let* df := match d with
             | PyInt a => int_to_float a
             | PyFloat f => Ok f
             end in
  float_truediv df r.

(** [q + k] with [k] an [int]. *)
Definition add_int (q : float) (k : Z) : result float :=
  let* kf := int_to_float k in Ok (q + kf)%float.

(** The integer part, rounded toward minus infinity, of a finite value. *)
Definition SF_floor (s : spec_float) : option Z :=
  match s with
  | S754_zero _ => Some 0
  | S754_finite sg m e =>
      let v := if sg then Z.neg m else Z.pos m in
      Some (if 0 <=? e then v * 2 ^ e else v / 2 ^ (- e))
  | S754_infinity _ | S754_nan => None
  end.

(** [int(y // 1)]: on a finite [y] the floor division by one is the floor
    of [y], which [int] returns unchanged; on an infinity or a NaN the
    floor division gives NaN, which [int] refuses with [ValueError]. *)
Definition int_floordiv_one (y : float) : result Z :=
  match SF_floor (Prim2SF y) with
  | Some z => Ok z
  | None => Raise ValueError
  end.

(** [x > 0]. *)
Definition gt_zero (x : pynum) : bool :=
  match x with
  | PyInt a => 0 <? a
  | PyFloat f => (0 <? f)%float
  end.

(** [min(a, b)] and [max(a, b)] return the first argument unless the second
    is strictly smaller (resp. larger). *)
Definition min (a b : float) : float := if (b <? a)%float then b else a.
Definition max (a b : float) : float := if (a <? b)%float then b else a.

(** Half-to-even rounding of [n / d] to an integer, for [0 < d]. *)
Definition div_half_even (n d : Z) : Z :=
  let q := n / d in
  let r := n mod d in
  match 2 * r ?= d with
  | Lt => q
  | Gt => q + 1
  | Eq => if Z.even q then q else q + 1
  end.

(** [round(x, 2)]: the exact value of [x] is rounded to two decimals
    (ties to even) and the decimal is read back as the nearest float;
    zeros, infinities and NaN round to themselves and the sign is kept. *)
Definition round2 (x : float) : float :=
  match Prim2SF x with
  | S754_finite sg m e =>
      if 0 <=? e then x
      else
        let n := div_half_even (Z.pos m * 100) (2 ^ (- e)) in
        match n with
        | Zpos p =>
            SF2Prim (SF64div (S754_finite sg p 0) (S754_finite false 100 0))
        | _ => if sg then neg_zero else zero
        end
  | _ => x
  end.

End Py.

(** ** arduino_part.py *)

(** [map_range]: the range ends are [int]s (the class constants -1, 0, 1 and
    the configured pulses), [x] is a [float] command or the [int] 0. *)
Definition map_range (x : pynum) (X_min X_max Y_min Y_max : Z) : result Z :=
  let X_range := X_max - X_min in
  let Y_range := Y_max - Y_min in
  let* XY_ratio := Py.int_truediv X_range Y_range in
  let* d := Py.sub_int x X_min in
  let* q := Py.truediv_float d XY_ratio in
  let* y := Py.add_int q Y_min in
  Py.int_floordiv_one y.

(** The expression of [map_range] read over exact rationals: what it would
    return if no operation rounded.  [None] stands for the two divisions by
    zero.  It serves to tell what the expression is meant to compute from
    what binary64 makes of it. *)
Definition map_range_exact (x : Q) (X_min X_max Y_min Y_max : Z) : option Z :=
  let X_range := X_max - X_min in
  let Y_range := Y_max - Y_min in
  if Y_range =? 0 then None
  else
    let XY_ratio := (inject_Z X_range / inject_Z Y_range)%Q in
    if Qeq_bool XY_ratio 0 then None
    else Some (Qfloor ((x - inject_Z X_min) / XY_ratio + inject_Z Y_min)%Q).

(** The PyMata3 board behind [ArduinoFirmata].  [faults] scripts the coming
    [analog_write] calls ([true]: that call raises); [written] logs the values
    that reached the board, latest first; [attempts] counts the calls. *)
Record board : Type := {
  faults : list bool;
  written : list (Z * Z);
  attempts : nat
}.

(** Code that talks to the board: it may raise, and the board keeps what was
    done before the exception. *)
Definition io (A : Type) : Type := board -> result A * board.

Definition io_ret {A : Type} (a : A) : io A := fun b => (Ok a, b).

Definition io_bind {A B : Type} (m : io A) (k : A -> io B) : io B :=
  fun b =>
    match m b with
    | (Ok a, b') => k a b'
    | (Raise e, b') => (Raise e, b')
    end.

(** [try: m except: h] with a bare [except]. *)
Definition io_try {A : Type} (m h : io A) : io A :=
  fun b =>
    match m b with
    | (Ok a, b') => (Ok a, b')
    | (Raise _, b') => h b'
    end.

Definition io_lift {A : Type} (r : result A) : io A := fun b => (r, b).

Definition analog_write (pin value : Z) : io unit :=
  fun b =>
    let n := S (attempts b) in
    match faults b with
    | true :: rest =>
        (Raise (WriteError n),
         {| faults := rest; written := written b; attempts := n |})
    | false :: rest =>
        (Ok tt,
         {| faults := rest; written := (pin, value) :: written b;
            attempts := n |})
    | [] =>
        (Ok tt,
         {| faults := []; written := (pin, value) :: written b;
            attempts := n |})
    end.

Module ArduinoFirmata.

Record t : Type := { servo_pin : Z; esc_pin : Z }.

Definition set_pulse (self : t) (pin angle : Z) : io unit :=
  io_try (analog_write pin angle) (analog_write pin angle).

Definition set_servo_pulse (self : t) (angle : Z) : io unit :=
  set_pulse self (servo_pin self) angle.

Definition set_esc_pulse (self : t) (angle : Z) : io unit :=
  set_pulse self (esc_pin self) angle.

End ArduinoFirmata.

Module PWMSteering.

Definition LEFT_ANGLE : Z := -1.
Definition RIGHT_ANGLE : Z := 1.

Record t : Type := {
  controller : ArduinoFirmata.t;
  left_pulse : Z;
  right_pulse : Z;
  pulse : Z;
  running : bool
}.

Definition init (controller : ArduinoFirmata.t) (left_pulse right_pulse : Z)
  : result t :=
  let* p := map_range (PyInt 0) LEFT_ANGLE RIGHT_ANGLE left_pulse right_pulse in
  Ok {| controller := controller; left_pulse := left_pulse;
        right_pulse := right_pulse; pulse := p; running := true |}.

Definition run_threaded (self : t) (angle : pynum) : result t :=
  let* p := map_range angle LEFT_ANGLE RIGHT_ANGLE
              (left_pulse self) (right_pulse self) in
  Ok {| controller := controller self; left_pulse := left_pulse self;
        right_pulse := right_pulse self; pulse := p;
        running := running self |}.

Definition run (self : t) (angle : pynum) : io t :=
  io_bind (io_lift (run_threaded self angle)) (fun self' =>
  io_bind (ArduinoFirmata.set_servo_pulse (controller self') (pulse self'))
    (fun _ => io_ret self')).

(** [update], the loop of the part's thread: [n] rounds of it, with the
    fields as they are at the start ([run_threaded] and [shutdown] change
    them from the vehicle loop). *)
Fixpoint update (n : nat) (self : t) : io unit :=
  match n with
  | O => io_ret tt
  | S n' =>
      if running self then
        io_bind (ArduinoFirmata.set_servo_pulse (controller self) (pulse self))
          (fun _ => update n' self)
      else io_ret tt
  end.

(** [shutdown] waits and clears [running]; it sends nothing. *)
Definition shutdown (self : t) : t :=
  {| controller := controller self; left_pulse := left_pulse self;
     right_pulse := right_pulse self; pulse := pulse self;
     running := false |}.

End PWMSteering.

Module PWMThrottle.

Definition MIN_THROTTLE : Z := -1.
Definition MAX_THROTTLE : Z := 1.

Record t : Type := {
  controller : ArduinoFirmata.t;
  max_pulse : Z;
  min_pulse : Z;
  zero_pulse : Z;
  pulse : Z;
  running : bool
}.

(** The constructor arms the ESC: max, min, then zero pulse. *)
Definition init (controller : ArduinoFirmata.t)
    (max_pulse min_pulse zero_pulse : Z) : io t :=
  io_bind (ArduinoFirmata.set_esc_pulse controller max_pulse) (fun _ =>
  io_bind (ArduinoFirmata.set_esc_pulse controller min_pulse) (fun _ =>
  io_bind (ArduinoFirmata.set_esc_pulse controller zero_pulse) (fun _ =>
  io_ret {| controller := controller; max_pulse := max_pulse;
            min_pulse := min_pulse; zero_pulse := zero_pulse;
            pulse := zero_pulse; running := true |}))).

Definition with_pulse (self : t) (p : Z) : t :=
  {| controller := controller self; max_pulse := max_pulse self;
     min_pulse := min_pulse self; zero_pulse := zero_pulse self;
     pulse := p; running := running self |}.

Definition run_threaded (self : t) (throttle : pynum) : result t :=
  if Py.gt_zero throttle then
    let* p := map_range throttle 0 MAX_THROTTLE
                (zero_pulse self) (max_pulse self) in
    Ok (with_pulse self p)
  else
    let* p := map_range throttle MIN_THROTTLE 0
                (min_pulse self) (zero_pulse self) in
    Ok (with_pulse self p).

Definition run (self : t) (throttle : pynum) : io t :=
  io_bind (io_lift (run_threaded self throttle)) (fun self' =>
  io_bind (ArduinoFirmata.set_esc_pulse (controller self') (pulse self'))
    (fun _ => io_ret self')).

(** [shutdown] stops the vehicle with [run(0)] and clears [running]. *)
Definition shutdown (self : t) : io t :=
  io_bind (run self (PyInt 0)) (fun self' =>
  io_ret {| controller := controller self'; max_pulse := max_pulse self';
            min_pulse := min_pulse self'; zero_pulse := zero_pulse self';
            pulse := pulse self'; running := false |}).

(** [update], the loop of the part's thread: [n] rounds of it. *)
Fixpoint update (n : nat) (self : t) : io unit :=
  match n with
  | O => io_ret tt
  | S n' =>
      if running self then
        io_bind (ArduinoFirmata.set_esc_pulse (controller self) (pulse self))
          (fun _ => update n' self)
      else io_ret tt
  end.

End PWMThrottle.

(** ** joystick_part.py: the device decoder *)

Module Joystick.

Record t : Type := {
  axis_states : gmap string float;
  button_states : gmap string Z;
  axis_names : gmap Z string;
  button_names : gmap Z string;
  axis_map : list string;
  button_map : list string;
  (** [None] until [init] has opened the device; then the bytes the device
      file still has to deliver. *)
  jsdev : option (list Byte.byte)
}.

(** The constructor of the base class and the name tables that
    [LogitechJoystick] adds. *)
Definition new : t :=
  {| axis_states := ∅; button_states := ∅; axis_names := ∅;
     button_names := ∅; axis_map := []; button_map := []; jsdev := None |}.

Definition logitech_axis_names : gmap Z string :=
  list_to_map
    [(0x00, "left_stick_horz"); (0x01, "left_stick_vert");
     (0x03, "right_stick_horz"); (0x04, "right_stick_vert");
     (0x02, "L2_pressure"); (0x05, "R2_pressure");
     (0x10, "dpad_leftright"); (0x11, "dpad_up_down")]%string.

Definition logitech_button_names : gmap Z string :=
  list_to_map
    [(0x13a, "back"); (0x13b, "start"); (0x13c, "Logitech");
     (0x130, "A"); (0x131, "B"); (0x133, "X"); (0x134, "Y");
     (0x136, "L1"); (0x137, "R1");
     (0x13d, "left_stick_press"); (0x13e, "right_stick_press")]%string.

Definition logitech : t :=
  {| axis_states := ∅; button_states := ∅;
     axis_names := logitech_axis_names;
     button_names := logitech_button_names;
     axis_map := []; button_map := []; jsdev := None |}.

(** What the three ioctl queries and the open file give [init]. *)
Record device : Type := {
  num_axes : Z;
  num_buttons : Z;
  axmap : list Z;
  btnmap : list Z;
  stream : list Byte.byte
}.

Definition hex_digit (d : Z) : ascii :=
  nth (Z.to_nat d)
    ["0"; "1"; "2"; "3"; "4"; "5"; "6"; "7"; "8"; "9";
     "a"; "b"; "c"; "d"; "e"; "f"]%char "0"%char.

Fixpoint hex_digits (fuel : nat) (n : Z) (acc : string) : string :=
  match fuel with
  | O => acc
  | S fuel' =>
      let acc := String (hex_digit (n mod 16)) acc in
      if n / 16 =? 0 then acc else hex_digits fuel' (n / 16) acc
  end.

Fixpoint zero_pad (k : nat) (s : string) : string :=
  match k with
  | O => s
  | S k' => zero_pad k' (String "0"%char s)
  end.

(** ['%0wx' % n] for a non-negative [n]. *)
Definition format_hex (w : nat) (n : Z) : string :=
  let digits := hex_digits (S (Z.to_nat (Z.log2 n))) n EmptyString in
  zero_pad (w - String.length digits) digits.

(** ['unknown(0x%0wx)' % code]. *)
Definition unknown_name (w : nat) (code : Z) : string :=
  ("unknown(0x" ++ format_hex w code ++ ")")%string.

(** The two loops of [init]: one name per reported code, looked up in the
    profile's table, and a zeroed state under that name. *)
Definition axis_name_of (self : t) (axis : Z) : string :=
  default (unknown_name 2 axis) (axis_names self !! axis).

Definition button_name_of (self : t) (btn : Z) : string :=
  default (unknown_name 3 btn) (button_names self !! btn).

Definition init (self : t) (dev : device) : t :=
  let axes :=
    map (axis_name_of self)
      (firstn (Z.to_nat (num_axes dev)) (axmap dev)) in
  let btns :=
    map (button_name_of self)
      (firstn (Z.to_nat (num_buttons dev)) (btnmap dev)) in
  {| axis_states :=
       fold_left (fun m name => <[name := 0%float]> m) axes (axis_states self);
     button_states :=
       fold_left (fun m name => <[name := 0]> m) btns (button_states self);
     axis_names := axis_names self;
     button_names := button_names self;
     axis_map := axis_map self ++ axes;
     button_map := button_map self ++ btns;
     jsdev := Some (stream dev) |}.

(** What [poll] returns: [button, button_state, axis, axis_val]. *)
Definition event : Type :=
  (option string * option Z * option string * option float)%type.

Definition no_event : event := (None, None, None, None).

Definition u8 (b : Byte.byte) : Z := Z.of_N (Byte.to_N b).

(** [struct.unpack('IhBB', evbuf)] on a little-endian host. *)
Definition unpack_IhBB (evbuf : list Byte.byte) : result (Z * Z * Z * Z) :=
  match evbuf with
  | [b0; b1; b2; b3; b4; b5; b6; b7] =>
      let tval := u8 b0 + 2 ^ 8 * u8 b1 + 2 ^ 16 * u8 b2 + 2 ^ 24 * u8 b3 in
      let raw := u8 b4 + 2 ^ 8 * u8 b5 in
      let value := if raw <? 2 ^ 15 then raw else raw - 2 ^ 16 in
      Ok (tval, value, u8 b6, u8 b7)
  | _ => Raise StructError
  end.

(** Truth value of a [str]. *)
Definition truthy (s : string) : bool :=
  match s with
  | EmptyString => false
  | String _ _ => true
  end.

Definition with_jsdev (self : t) (d : option (list Byte.byte)) : t :=
  {| axis_states := axis_states self; button_states := button_states self;
     axis_names := axis_names self; button_names := button_names self;
     axis_map := axis_map self; button_map := button_map self;
     jsdev := d |}.

Definition set_button_state (self : t) (button : string) (value : Z) : t :=
  {| axis_states := axis_states self;
     button_states := <[button := value]> (button_states self);
     axis_names := axis_names self; button_names := button_names self;
     axis_map := axis_map self; button_map := button_map self;
     jsdev := jsdev self |}.

Definition set_axis_state (self : t) (axis : string) (fvalue : float) : t :=
  {| axis_states := <[axis := fvalue]> (axis_states self);
     button_states := button_states self;
     axis_names := axis_names self; button_names := button_names self;
     axis_map := axis_map self; button_map := button_map self;
     jsdev := jsdev self |}.

(** The [typev & 0x01] block. *)
Definition poll_button (self : t) (value typev number : Z)
  : result (option string * option Z) * t :=
  if Z.land typev 1 =? 0 then (Ok (None, None), self)
  else
    match button_map self !! Z.to_nat number with
    | None => (Raise IndexError, self)
    | Some button =>
        if truthy button
        then (Ok (Some button, Some value),
              set_button_state self button value)
        else (Ok (Some button, None), self)
    end.

(** The [typev & 0x02] block. *)
Definition poll_axis (self : t) (value typev number : Z)
  : result (option string * option float) * t :=
  if Z.land typev 2 =? 0 then (Ok (None, None), self)
  else
    match axis_map self !! Z.to_nat number with
    | None => (Raise IndexError, self)
    | Some axis =>
        if truthy axis
        then
          match Py.truediv_float (PyInt value) 32767 with
          | Ok fvalue =>
              (Ok (Some axis, Some fvalue), set_axis_state self axis fvalue)
          | Raise e => (Raise e, self)
          end
        else (Ok (Some axis, None), self)
    end.

Definition poll (self : t) : result event * t :=
  match jsdev self with
  | None => (Ok no_event, self)
  | Some dev =>
      let evbuf := firstn 8 dev in
      let self := with_jsdev self (Some (skipn 8 dev)) in
      match evbuf with
      | [] => (Ok no_event, self)
      | _ =>
          match unpack_IhBB evbuf with
          | Raise e => (Raise e, self)
          | Ok (tval, value, typev, number) =>
              if negb (Z.land typev 128 =? 0) then (Ok no_event, self)
              else
                match poll_button self value typev number with
                | (Raise e, self) => (Raise e, self)
                | (Ok (button, button_state), self) =>
                    match poll_axis self value typev number with
                    | (Raise e, self) => (Raise e, self)
                    | (Ok (axis, axis_val), self) =>
                        (Ok (button, button_state, axis, axis_val), self)
                    end
                end
          end
      end
  end.

(** What [init] finds on the host: no [fcntl] module, no file at [dev_fn],
    a file that [open] no longer finds, or a device. *)
Inductive host : Type :=
| No_fcntl
| Missing
| Vanished
| Present (dev : device).

(** How [init] ends: with its return value, or with the
    [FileNotFoundError] of [open]. *)
Inductive init_outcome : Type :=
| Returned (ok : bool) (self : t)
| File_not_found.

(** [init] with its early returns; [jsdev] is assigned only once [open] has
    returned. *)
Definition init_on (self : t) (h : host) : init_outcome :=
  match h with
  | No_fcntl => Returned false self
  | Missing => Returned false self
  | Vanished => File_not_found
  | Present dev => Returned true (init self dev)
  end.

End Joystick.

(** ** joystick_part.py: the controller *)

Module JoystickController.

Local Open Scope float_scope.

Definition ES_IDLE : Z := -1.
Definition ES_START : Z := 0.
Definition ES_THROTTLE_NEG_ONE : Z := 1.
Definition ES_THROTTLE_POS_ONE : Z := 2.
Definition ES_THROTTLE_NEG_TWO : Z := 3.

(** The fields the operations read or write.  The [int] literals 0 and 1
    that the source stores in number-valued fields are the floats 0.0 and
    1.0, to which Python converts them in every mixed operation. *)
Record t : Type := {
  angle : float;
  throttle : float;
  mode : string;
  last_throttle_axis_val : float;
  throttle_scale : float;
  steering_scale : float;
  throttle_dir : float;
  recording : bool;
  constant_throttle : bool;
  auto_record_on_throttle : bool;
  estop_state : Z;
  chaos_monkey_steering : option float;
  dead_zone : float
}.

(** The constructor, before [init_trigger_maps]. *)
Definition init (throttle_scale steering_scale throttle_dir : float)
    (auto_record_on_throttle : bool) : t :=
  {| angle := 0; throttle := 0; mode := "user";
     last_throttle_axis_val := 0;
     throttle_scale := throttle_scale; steering_scale := steering_scale;
     throttle_dir := throttle_dir;
     recording := false; constant_throttle := false;
     auto_record_on_throttle := auto_record_on_throttle;
     estop_state := ES_IDLE; chaos_monkey_steering := None;
     dead_zone := 0 |}.

(** Field assignments. *)
Definition with_angle (s : t) (v : float) : t :=
  {| angle := v; throttle := throttle s; mode := mode s;
     last_throttle_axis_val := last_throttle_axis_val s;
     throttle_scale := throttle_scale s; steering_scale := steering_scale s;
     throttle_dir := throttle_dir s; recording := recording s;
     constant_throttle := constant_throttle s;
     auto_record_on_throttle := auto_record_on_throttle s;
     estop_state := estop_state s;
     chaos_monkey_steering := chaos_monkey_steering s;
     dead_zone := dead_zone s |}.

Definition with_throttle (s : t) (v : float) : t :=
  {| angle := angle s; throttle := v; mode := mode s;
     last_throttle_axis_val := last_throttle_axis_val s;
     throttle_scale := throttle_scale s; steering_scale := steering_scale s;
     throttle_dir := throttle_dir s; recording := recording s;
     constant_throttle := constant_throttle s;
     auto_record_on_throttle := auto_record_on_throttle s;
     estop_state := estop_state s;
     chaos_monkey_steering := chaos_monkey_steering s;
     dead_zone := dead_zone s |}.

Definition with_mode (s : t) (v : string) : t :=
  {| angle := angle s; throttle := throttle s; mode := v;
     last_throttle_axis_val := last_throttle_axis_val s;
     throttle_scale := throttle_scale s; steering_scale := steering_scale s;
     throttle_dir := throttle_dir s; recording := recording s;
     constant_throttle := constant_throttle s;
     auto_record_on_throttle := auto_record_on_throttle s;
     estop_state := estop_state s;
     chaos_monkey_steering := chaos_monkey_steering s;
     dead_zone := dead_zone s |}.

Definition with_last_throttle_axis_val (s : t) (v : float) : t :=
  {| angle := angle s; throttle := throttle s; mode := mode s;
     last_throttle_axis_val := v;
     throttle_scale := throttle_scale s; steering_scale := steering_scale s;
     throttle_dir := throttle_dir s; recording := recording s;
     constant_throttle := constant_throttle s;
     auto_record_on_throttle := auto_record_on_throttle s;
     estop_state := estop_state s;
     chaos_monkey_steering := chaos_monkey_steering s;
     dead_zone := dead_zone s |}.

Definition with_throttle_scale (s : t) (v : float) : t :=
  {| angle := angle s; throttle := throttle s; mode := mode s;
     last_throttle_axis_val := last_throttle_axis_val s;
     throttle_scale := v; steering_scale := steering_scale s;
     throttle_dir := throttle_dir s; recording := recording s;
     constant_throttle := constant_throttle s;
     auto_record_on_throttle := auto_record_on_throttle s;
     estop_state := estop_state s;
     chaos_monkey_steering := chaos_monkey_steering s;
     dead_zone := dead_zone s |}.

Definition with_recording (s : t) (v : bool) : t :=
  {| angle := angle s; throttle := throttle s; mode := mode s;
     last_throttle_axis_val := last_throttle_axis_val s;
     throttle_scale := throttle_scale s; steering_scale := steering_scale s;
     throttle_dir := throttle_dir s; recording := v;
     constant_throttle := constant_throttle s;
     auto_record_on_throttle := auto_record_on_throttle s;
     estop_state := estop_state s;
     chaos_monkey_steering := chaos_monkey_steering s;
     dead_zone := dead_zone s |}.

Definition with_constant_throttle (s : t) (v : bool) : t :=
  {| angle := angle s; throttle := throttle s; mode := mode s;
     last_throttle_axis_val := last_throttle_axis_val s;
     throttle_scale := throttle_scale s; steering_scale := steering_scale s;
     throttle_dir := throttle_dir s; recording := recording s;
     constant_throttle := v;
     auto_record_on_throttle := auto_record_on_throttle s;
     estop_state := estop_state s;
     chaos_monkey_steering := chaos_monkey_steering s;
     dead_zone := dead_zone s |}.

Definition with_estop_state (s : t) (v : Z) : t :=
  {| angle := angle s; throttle := throttle s; mode := mode s;
     last_throttle_axis_val := last_throttle_axis_val s;
     throttle_scale := throttle_scale s; steering_scale := steering_scale s;
     throttle_dir := throttle_dir s; recording := recording s;
     constant_throttle := constant_throttle s;
     auto_record_on_throttle := auto_record_on_throttle s;
     estop_state := v;
     chaos_monkey_steering := chaos_monkey_steering s;
     dead_zone := dead_zone s |}.

Definition with_chaos_monkey_steering (s : t) (v : option float) : t :=
  {| angle := angle s; throttle := throttle s; mode := mode s;
     last_throttle_axis_val := last_throttle_axis_val s;
     throttle_scale := throttle_scale s; steering_scale := steering_scale s;
     throttle_dir := throttle_dir s; recording := recording s;
     constant_throttle := constant_throttle s;
     auto_record_on_throttle := auto_record_on_throttle s;
     estop_state := estop_state s;
     chaos_monkey_steering := v;
     dead_zone := dead_zone s |}.

Definition with_dead_zone (s : t) (v : float) : t :=
  {| angle := angle s; throttle := throttle s; mode := mode s;
     last_throttle_axis_val := last_throttle_axis_val s;
     throttle_scale := throttle_scale s; steering_scale := steering_scale s;
     throttle_dir := throttle_dir s; recording := recording s;
     constant_throttle := constant_throttle s;
     auto_record_on_throttle := auto_record_on_throttle s;
     estop_state := estop_state s;
     chaos_monkey_steering := chaos_monkey_steering s;
     dead_zone := v |}.

Definition set_deadzone (self : t) (val : float) : t :=
  with_dead_zone self val.

Definition on_throttle_changes (self : t) : t :=
  if auto_record_on_throttle self then
    with_recording self
      ((dead_zone self <? abs (throttle self)) && String.eqb (mode self) "user")
  else self.

Definition emergency_stop (self : t) : t :=
  let self := with_mode self "user" in
  let self := with_recording self false in
  let self := with_constant_throttle self false in
  let self := with_estop_state self ES_START in
  with_throttle self 0.

Definition set_steering (self : t) (axis_val : float) : t :=
  with_angle self (steering_scale self * axis_val).

Definition set_throttle (self : t) (axis_val : float) : t :=
  let self := with_last_throttle_axis_val self axis_val in
  let self :=
    with_throttle self (throttle_dir self * axis_val * throttle_scale self) in
  on_throttle_changes self.

Definition toggle_manual_recording (self : t) : t :=
  if auto_record_on_throttle self then self
  else if recording self then with_recording self false
  else with_recording self true.

Definition increase_max_throttle (self : t) : t :=
  let self :=
    with_throttle_scale self
      (Py.round2 (Py.min 1 (throttle_scale self + 0.01))) in
  if constant_throttle self then
    let self := with_throttle self (throttle_scale self) in
    on_throttle_changes self
  else
    with_throttle self
      (throttle_dir self * last_throttle_axis_val self * throttle_scale self).

Definition decrease_max_throttle (self : t) : t :=
  let self :=
    with_throttle_scale self
      (Py.round2 (Py.max 0 (throttle_scale self - 0.01))) in
  if constant_throttle self then
    let self := with_throttle self (throttle_scale self) in
    on_throttle_changes self
  else
    with_throttle self
      (throttle_dir self * last_throttle_axis_val self * throttle_scale self).

Definition toggle_constant_throttle (self : t) : t :=
  if constant_throttle self then
    let self := with_constant_throttle self false in
    let self := with_throttle self 0 in
    on_throttle_changes self
  else
    let self := with_constant_throttle self true in
    let self := with_throttle self (throttle_scale self) in
    on_throttle_changes self.

Definition toggle_mode (self : t) : t :=
  if String.eqb (mode self) "user" then with_mode self "local_angle"
  else if String.eqb (mode self) "local_angle" then with_mode self "local"
  else with_mode self "user".

Definition chaos_monkey_on_left (self : t) : t :=
  with_chaos_monkey_steering self (Some (-0.2)).

Definition chaos_monkey_on_right (self : t) : t :=
  with_chaos_monkey_steering self (Some 0.2).

Definition chaos_monkey_off (self : t) : t :=
  with_chaos_monkey_steering self None.

(** The tuple [run_threaded] returns: angle, throttle, mode, recording. *)
Definition output : Type := (float * float * string * bool)%type.

Definition out_angle (o : output) : float := fst (fst (fst o)).
Definition out_throttle (o : output) : float := snd (fst (fst o)).
Definition out_mode (o : output) : string := snd (fst o).
Definition out_recording (o : output) : bool := snd o.

(** [run_threaded]; the stored camera frame [img_arr] plays no part. *)
Definition run_threaded (self : t) : output * t :=
  let normal (self : t) : output * t :=
    match chaos_monkey_steering self with
    | Some bias => ((bias, throttle self, mode self, false), self)
    | None => ((angle self, throttle self, mode self, recording self), self)
    end in
  if (ES_IDLE <? estop_state self)%Z then
    if (estop_state self =? ES_START)%Z then
      let self := with_estop_state self ES_THROTTLE_NEG_ONE in
      ((0, -1.0 * throttle_scale self, mode self, false), self)
    else if (estop_state self =? ES_THROTTLE_NEG_ONE)%Z then
      let self := with_estop_state self ES_THROTTLE_POS_ONE in
      ((0, 0.01, mode self, false), self)
    else if (estop_state self =? ES_THROTTLE_POS_ONE)%Z then
      let self := with_estop_state self ES_THROTTLE_NEG_TWO in
      let self := with_throttle self (-1.0 * throttle_scale self) in
      ((0, throttle self, mode self, false), self)
    else if (estop_state self =? ES_THROTTLE_NEG_TWO)%Z then
      let self := with_throttle self (throttle self + 0.05) in
      let self :=
        if 0.0 <=? throttle self then
          let self := with_throttle self 0.0 in
          with_estop_state self ES_IDLE
        else self in
      ((0, throttle self, mode self, false), self)
    else normal self
  else normal self.

(** [n] consecutive ticks: the outputs in order, then the final state. *)
Fixpoint ticks (n : nat) (self : t) : list output * t :=
  match n with
  | O => ([], self)
  | S n' =>
      let '(o, self') := run_threaded self in
      let '(os, self'') := ticks n' self' in
      (o :: os, self'')
  end.

End JoystickController.

(** ** joystick_part.py: the Logitech controller and its trigger tables *)

Module LogitechJoystickController.

Import JoystickController.
Local Open Scope float_scope.

(** The bound methods the trigger maps hold. *)
Inductive button_op : Type :=
| Toggle_mode
| Toggle_manual_recording
| Erase_last_N_records
| Emergency_stop
| Toggle_constant_throttle
| Chaos_monkey_on_right
| Chaos_monkey_on_left
| Chaos_monkey_off.

Inductive axis_op : Type :=
| Set_steering
| Set_throttle
| On_axis_dpad_LR
| On_axis_dpad_UD.

Definition button_down_trigger_map : gmap string button_op :=
  list_to_map
    [("start", Toggle_mode); ("B", Toggle_manual_recording);
     ("Y", Erase_last_N_records); ("A", Emergency_stop);
     ("back", Toggle_constant_throttle); ("R1", Chaos_monkey_on_right);
     ("L1", Chaos_monkey_on_left)]%string.

Definition button_up_trigger_map : gmap string button_op :=
  list_to_map [("R1", Chaos_monkey_off); ("L1", Chaos_monkey_off)]%string.

Definition axis_trigger_map : gmap string axis_op :=
  list_to_map
    [("right_stick_horz", Set_steering); ("left_stick_vert", Set_throttle);
     ("dpad_leftright", On_axis_dpad_LR);
     ("dpad_up_down", On_axis_dpad_UD)]%string.

(** [on_dpad_left] and [on_dpad_right] only print. *)
Definition on_axis_dpad_LR (self : t) (val : float) : t := self.

Definition on_axis_dpad_UD (self : t) (val : float) : t :=
  if val =? -1.0 then increase_max_throttle self
  else if val =? 1.0 then decrease_max_throttle self
  else self.

(** Calling a bound method.  [erase_last_N_records] acts on the tub only. *)
Definition call_button (op : button_op) (self : t) : t :=
  match op with
  | Toggle_mode => toggle_mode self
  | Toggle_manual_recording => toggle_manual_recording self
  | Erase_last_N_records => self
  | Emergency_stop => emergency_stop self
  | Toggle_constant_throttle => toggle_constant_throttle self
  | Chaos_monkey_on_right => chaos_monkey_on_right self
  | Chaos_monkey_on_left => chaos_monkey_on_left self
  | Chaos_monkey_off => chaos_monkey_off self
  end.

Definition call_axis (op : axis_op) (self : t) (axis_val : float) : t :=
  match op with
  | Set_steering => set_steering self axis_val
  | Set_throttle => set_throttle self axis_val
  | On_axis_dpad_LR => on_axis_dpad_LR self axis_val
  | On_axis_dpad_UD => on_axis_dpad_UD self axis_val
  end.

(** One pass of the body of [update]'s loop on a polled event. *)
Definition dispatch (self : t) (ev : Joystick.event) : t :=
  let '(button, button_state, axis, axis_val) := ev in
  let self :=
    match axis, axis_val with
    | Some a, Some v =>
        match axis_trigger_map !! a with
        | Some op => call_axis op self v
        | None => self
        end
    | _, _ => self
    end in
  let self :=
    match button, button_state with
    | Some b, Some st =>
        if Joystick.truthy b && (1 <=? st)%Z then
          match button_down_trigger_map !! b with
          | Some op => call_button op self
          | None => self
          end
        else self
    | _, _ => self
    end in
  match button, button_state with
  | Some b, Some st =>
      if Joystick.truthy b && (st =? 0)%Z then
        match button_up_trigger_map !! b with
        | Some op => call_button op self
        | None => self
        end
      else self
  | _, _ => self
  end.

(** [init_js]: the new value of [self.js] and the returned flag.  The flag
    is [self.js is not None]; what [init] returned is dropped. *)
Definition init_js (h : Joystick.host) : option Joystick.t * bool :=
  match Joystick.init_on Joystick.logitech h with
  | Joystick.Returned _ js => (Some js, true)
  | Joystick.File_not_found => (None, false)
  end.

(** The first loop of [update]: it calls [init_js] until a joystick object
    exists.  [hosts] is what the successive calls find; the loop is left
    when they are used up ([running] cleared). *)
Fixpoint wait_for_js (hosts : list Joystick.host) (js : option Joystick.t)
  : option Joystick.t * list Joystick.host :=
  match js with
  | Some _ => (js, hosts)
  | None =>
      match hosts with
      | [] => (None, [])
      | h :: rest =>
          let '(js', ok) := init_js h in
          if ok then (js', rest) else wait_for_js rest js'
      end
  end.

(** The second loop of [update]: [n] rounds of poll and dispatch.  An
    exception of [poll] leaves the loop and ends the thread; the result is
    that exception, if any, with the controller and the joystick as the loop
    left them. *)
Fixpoint update_loop (n : nat) (self : t) (js : Joystick.t)
  : option exn * t * Joystick.t :=
  match n with
  | O => (None, self, js)
  | S n' =>
      match Joystick.poll js with
      | (Ok ev, js') => update_loop n' (dispatch self ev) js'
      | (Raise e, js') => (Some e, self, js')
      end
  end.

End LogitechJoystickController.

(** ** Invariants, observations and sample objects *)

(** The controller of [js_drive.py], on the pins of [config.py]. *)
Definition arduino_controller : ArduinoFirmata.t :=
  {| ArduinoFirmata.servo_pin := 6; ArduinoFirmata.esc_pin := 5 |}.

(** The target ranges [0 .. k], [1 <= k <= n], on which [map_range] does not
    send the upper source end 1 to the upper target end [k]. *)
Definition upper_end_misses (n : nat) : list Z :=
  List.filter
    (fun k =>
       match map_range (PyFloat 1) 0 1 0 k with
       | Ok y => negb (y =? k)
       | Raise _ => true
       end)
    (map Z.of_nat (seq 1 n)).

(** A steering part with the given ends, centred. *)
Definition steering_part (left_pulse right_pulse pulse : Z) : PWMSteering.t :=
  {| PWMSteering.controller := arduino_controller;
     PWMSteering.left_pulse := left_pulse;
     PWMSteering.right_pulse := right_pulse;
     PWMSteering.pulse := pulse;
     PWMSteering.running := true |}.

(** A throttle part as its constructor leaves it. *)
Definition throttle_part (max_pulse min_pulse zero_pulse : Z)
  : PWMThrottle.t :=
  {| PWMThrottle.controller := arduino_controller;
     PWMThrottle.max_pulse := max_pulse;
     PWMThrottle.min_pulse := min_pulse;
     PWMThrottle.zero_pulse := zero_pulse;
     PWMThrottle.pulse := zero_pulse;
     PWMThrottle.running := true |}.

Definition pulse_of (r : result PWMThrottle.t) : result Z :=
  let* self := r in Ok (PWMThrottle.pulse self).

(** Whether the [n]-th coming [analog_write] is scripted to raise. *)
Definition nth_fault (n : nat) (b : board) : bool := nth n (faults b) false.

(** An opened joystick with one named and one unnamed entry in each map. *)
Definition sample_joystick (dev : list Byte.byte) : Joystick.t :=
  {| Joystick.axis_states := {[ "left_stick_vert"%string := 0%float ]};
     Joystick.button_states := {[ "A"%string := 0 ]};
     Joystick.axis_names := Joystick.logitech_axis_names;
     Joystick.button_names := Joystick.logitech_button_names;
     Joystick.axis_map := ["left_stick_vert"; ""]%string;
     Joystick.button_map := ["A"; ""]%string;
     Joystick.jsdev := Some dev |}.

(** A name that [if button:] / [if axis:] lets through. *)
Definition named (s : string) : Prop := Joystick.truthy s = true.

(** The class invariant: [estop_state] is one of the five [ES_] constants. *)
Definition estop_valid (s : JoystickController.t) : Prop :=
  JoystickController.ES_IDLE <= JoystickController.estop_state s
  <= JoystickController.ES_THROTTLE_NEG_TWO.

(** The throttle after [n] additions of 0.05, as [ES_THROTTLE_NEG_TWO] makes
    them tick after tick. *)
Fixpoint ramp (n : nat) (t : float) : float :=
  match n with
  | O => t
  | S n' => (ramp n' t + 0.05)%float
  end.

(** The recording flag that [on_throttle_changes] computes. *)
Definition auto_recording (s : JoystickController.t) : bool :=
  if JoystickController.auto_record_on_throttle s
  then (JoystickController.dead_zone s
        <? abs (JoystickController.throttle s))%float
       && String.eqb (JoystickController.mode s) "user"
  else JoystickController.recording s.

(** ** Scripts, ranges and invariants for the longer runs *)

(** A fault script in which no two consecutive writes fail. *)
Fixpoint no_double_fault (fs : list bool) : bool :=
  match fs with
  | [] => true
  | f :: rest => negb (f && hd false rest) && no_double_fault rest
  end.

(** [n] consecutive integers from [z] on. *)
Fixpoint zrange (n : nat) (z : Z) : list Z :=
  match n with
  | O => []
  | S n' => z :: zrange n' (z + 1)
  end.

(** What [map_range] does once [XY_ratio] is known. *)
Definition map_range_with_ratio (x : pynum) (X_min Y_min : Z)
    (XY_ratio : float) : result Z :=
  let* d := Py.sub_int x X_min in
  let* q := Py.truediv_float d XY_ratio in
  let* y := Py.add_int q Y_min in
  Py.int_floordiv_one y.

(** [k / 100] as Python computes it: the float nearest to [k] hundredths. *)
Definition hundredth (k : Z) : float :=
  SF2Prim (SF64div (Py.Z2SF k) (Py.Z2SF 100)).

(** The number of sums of the ramp from [t] that stay below zero, when it is
    less than [fuel]. *)
Fixpoint ramp_length (fuel : nat) (t : float) : option nat :=
  match fuel with
  | O => None
  | S fuel' =>
      if (0 <=? t + 0.05)%float then Some O
      else option_map S (ramp_length fuel' (t + 0.05)%float)
  end.

(** The three driving modes and the three values of the steering override. *)
Definition mode_valid (s : JoystickController.t) : Prop :=
  In (JoystickController.mode s) ["user"; "local_angle"; "local"]%string.

Definition override_valid (s : JoystickController.t) : Prop :=
  In (JoystickController.chaos_monkey_steering s)
    [None; Some (-0.2)%float; Some 0.2%float].

(** What the two threads do to the controller, one call at a time: the
    joystick thread dispatches a polled event, the vehicle loop asks for the
    outputs of a tick. *)
Inductive action : Type :=
| Event (ev : Joystick.event)
| Tick.

Definition act (self : JoystickController.t) (a : action)
  : JoystickController.t :=
  match a with
  | Event ev => LogitechJoystickController.dispatch self ev
  | Tick => snd (JoystickController.run_threaded self)
  end.

(** The values a signed 16-bit field holds. *)
Definition i16_values : list Z := zrange (Z.to_nat 65536) (-32768).

(** What is checked of the axis value that [poll] computes from the raw
    value [v]. *)
Definition axis_value_ok (v : Z) : bool :=
  match Py.truediv_float (PyInt v) 32767 with
  | Ok f =>
      (-1.0001 <=? f)%float && (f <=? 1)%float
      && Bool.eqb (f <? -1)%float (v =? -32768)
      && Bool.eqb (f =? -1)%float (v =? -32767)
      && Bool.eqb (f =? 1)%float (v =? 32767)
      && Bool.eqb (f =? 0)%float (v =? 0)
  | Raise _ => false
  end.

(** [j'] has the maps and the name tables of [j], the states of [j] for
    every name that is not in the maps, and a state for every name that has
    one in [j]. *)
Definition keeps_tables (j j' : Joystick.t) : Prop :=
  Joystick.axis_map j' = Joystick.axis_map j /\
  Joystick.button_map j' = Joystick.button_map j /\
  Joystick.axis_names j' = Joystick.axis_names j /\
  Joystick.button_names j' = Joystick.button_names j /\
  (forall name, ~ In name (Joystick.axis_map j) ->
     Joystick.axis_states j' !! name = Joystick.axis_states j !! name) /\
  (forall name, ~ In name (Joystick.button_map j) ->
     Joystick.button_states j' !! name = Joystick.button_states j !! name) /\
  (forall name, is_Some (Joystick.axis_states j !! name) ->
     is_Some (Joystick.axis_states j' !! name)) /\
  (forall name, is_Some (Joystick.button_states j !! name) ->
     is_Some (Joystick.button_states j' !! name)).

(** What no control of the Logitech map and no tick changes: the
    emergency-stop state stays one of the five constants, the mode one of
    the three modes, the steering override one of its three values, and the
    scales, the direction, the recording policy and the dead zone those of
    the constructor. *)
Definition controller_inv (ss td : float) (auto : bool)
    (s : JoystickController.t) : Prop :=
  estop_valid s /\ mode_valid s /\ override_valid s /\
  JoystickController.steering_scale s = ss /\
  JoystickController.throttle_dir s = td /\
  JoystickController.auto_record_on_throttle s = auto /\
  JoystickController.dead_zone s = 0%float.

(** Whether the event is a press (a state of at least 1) of the button
    [b]. *)
Definition pressed (ev : Joystick.event) (b : string) : bool :=
  match ev with
  | (Some b', Some st, _, _) => String.eqb b' b && (1 <=? st)
  | _ => false
  end.

(** Whether [dev] starts with [k] whole records that all carry the flag
    0x80, as the records do by which the driver reports the initial state of
    every button and axis when the device is opened. *)
Fixpoint init_records (k : nat) (dev : list Byte.byte) : bool :=
  match k with
  | O => true
  | S k' =>
      match dev with
      | b0 :: b1 :: b2 :: b3 :: b4 :: b5 :: b6 :: b7 :: rest =>
          negb (Z.land (Joystick.u8 b6) 128 =? 0) && init_records k' rest
      | _ => false
      end
  end.

(** * Properties *)

(** ** The command mapper *)

Section MapRange.

(** The ratio [X_range / Y_range] is the first thing [map_range] computes,
    so an empty target range raises whatever [x] and the source range are. *)
Lemma map_range_empty_target (x : pynum) (X_min X_max Y : Z) :
  map_range x X_min X_max Y Y = Raise ZeroDivisionError.
Proof.
  unfold map_range, Py.int_truediv.
  rewrite Z.sub_diag. reflexivity.
Qed.

(** C10: with [x_min <> x_max] and [y_min = y_max], [map_range] raises
    [ZeroDivisionError], for every [x]. *)
Theorem map_range_degenerate_target_raises
    (x : pynum) (X_min X_max Y_min Y_max : Z) :
  X_min <> X_max ->
  Y_min = Y_max ->
  map_range x X_min X_max Y_min Y_max = Raise ZeroDivisionError.
Proof.
  intros _ ->. apply map_range_empty_target.
Qed.

Lemma map_range_degenerate_target_raises_witness :
  -1 <> 1 /\ 90 = 90 /\
  map_range (PyFloat 0.5) (-1) 1 90 90 = Raise ZeroDivisionError.
Proof.
  split; [lia | split; [reflexivity |]].
  apply (map_range_degenerate_target_raises (PyFloat 0.5) (-1) 1 90 90);
    [lia | reflexivity].
Defined.

(** A degenerate source range never returns either: with the target ends
    apart the ratio is a zero, and the division of [x - X_min] by it raises
    (unless an [int] too large for a float has raised before). *)
Lemma map_range_degenerate_source_raises (x : pynum) (X Y_min Y_max : Z) :
  exists e, map_range x X X Y_min Y_max = Raise e.
Proof.
  unfold map_range, Py.int_truediv. rewrite Z.sub_diag.
  destruct (Z.eqb_spec (Y_max - Y_min) 0) as [E | E];
    [eexists; reflexivity |].
  assert (R : exists z : float,
            (z =? 0)%float = true /\
            (if is_infinity (SF2Prim (SF64div (Py.Z2SF 0)
                                        (Py.Z2SF (Y_max - Y_min))))
             then Raise OverflowError
             else Ok (SF2Prim (SF64div (Py.Z2SF 0)
                                 (Py.Z2SF (Y_max - Y_min))))) = Ok z).
  { destruct (Y_max - Y_min) as [| p | p]; [contradiction | |];
      cbn [Py.Z2SF]; eexists; (split; [| reflexivity]); reflexivity. }
  destruct R as [z [Hz ->]]. cbn [bind].
  unfold Py.sub_int, Py.truediv_float, Py.float_truediv, Py.int_to_float.
  destruct x as [a | f].
  - cbn [bind]. destruct (is_infinity (Py.float_of_Z (a - X))); cbn [bind];
      rewrite ?Hz; eexists; reflexivity.
  - destruct (is_infinity (Py.float_of_Z X)); cbn [bind];
      rewrite ?Hz; eexists; reflexivity.
Qed.

(** C3: at the upper end of the source range the result can miss [y_max] by
    one, and with a reversed target range it can fall below both target
    ends: the quotient [(x - X_min) / XY_ratio] is rounded before the floor
    is taken.  The steering translator hands the results on: full right on a
    reversed linkage with the ends 49 and 0 gives the pulse -1. *)
Theorem map_range_endpoint_off_by_one :
  map_range (PyFloat 1) 0 1 0 93 = Ok 92 /\
  map_range (PyInt 1) (-1) 1 0 93 = Ok 92 /\
  map_range (PyFloat 1) 0 1 49 0 = Ok (-1) /\
  map_range (PyFloat 1) (-1) 1 49 0 = Ok (-1) /\
  PWMSteering.run_threaded (steering_part 0 93 46) (PyFloat 1)
    = Ok (steering_part 0 93 92) /\
  PWMSteering.run_threaded (steering_part 49 0 24) (PyFloat 1)
    = Ok (steering_part 49 0 (-1)).
Proof. repeat split; vm_compute; reflexivity. Qed.

(** The miss is not isolated: among the target ranges [0 .. k] up to 255,
    fifteen lose their upper end. *)
Example map_range_upper_end_misses :
  upper_end_misses 255 =
    [93; 99; 105; 117; 123; 186; 198; 210; 211; 221; 227; 234; 243; 245; 246].
Proof. vm_compute; reflexivity. Qed.

(** The lower end of the source range and the configured steering ends of
    [config.py] are mapped as the linear map has them. *)
Lemma map_range_configured_steering :
  map_range (PyFloat (-1)) (-1) 1 120 60 = Ok 120 /\
  map_range (PyInt 0) (-1) 1 120 60 = Ok 90 /\
  map_range (PyFloat 1) (-1) 1 120 60 = Ok 60 /\
  map_range (PyFloat 0) 0 1 0 93 = Ok 0.
Proof. repeat split; vm_compute; reflexivity. Qed.

End MapRange.

(** ** The command mapper without rounding *)

Section ExactArithmetic.

Lemma inject_Z_nonzero (z : Z) : z <> 0 -> ~ (inject_Z z == 0)%Q.
Proof. intros H E. apply H. unfold Qeq, inject_Z in E; cbn in E. lia. Qed.

Lemma inject_Z_sub (a b : Z) : (inject_Z (a - b) == inject_Z a - inject_Z b)%Q.
Proof. unfold Z.sub. rewrite inject_Z_plus, inject_Z_opp. ring. Qed.

(** With both ranges non-degenerate the exact expression is defined, and its
    value before the floor is [Y_min + t * Y_range], with [t] the fraction of
    the source range that [x] has covered. *)
Lemma exact_value (x : Q) (X_min X_max Y_min Y_max : Z) :
  X_min <> X_max -> Y_min <> Y_max ->
  let X_range := inject_Z (X_max - X_min) in
  let Y_range := inject_Z (Y_max - Y_min) in
  let v := ((x - inject_Z X_min) / (X_range / Y_range) + inject_Z Y_min)%Q in
  map_range_exact x X_min X_max Y_min Y_max = Some (Qfloor v) /\
  (v == inject_Z Y_min + (x - inject_Z X_min) / X_range * Y_range)%Q.
Proof.
  intros Hx Hy X_range Y_range v.
  assert (Nx : ~ (X_range == 0)%Q) by (apply inject_Z_nonzero; lia).
  assert (Ny : ~ (Y_range == 0)%Q) by (apply inject_Z_nonzero; lia).
  split.
  - unfold map_range_exact.
    destruct (Z.eqb_spec (Y_max - Y_min) 0); [lia |].
    fold X_range Y_range.
    destruct (Qeq_bool _ 0) eqn:E; [| reflexivity].
    apply Qeq_bool_eq in E. exfalso. apply Nx.
    rewrite <- (Qmult_div_r X_range Y_range) by exact Ny.
    rewrite E. ring.
  - unfold v. field. split; assumption.
Qed.

Lemma floor_between (v : Q) (lo hi : Z) :
  (inject_Z lo <= v)%Q -> (v <= inject_Z hi)%Q -> lo <= Qfloor v <= hi.
Proof.
  intros L H. split.
  - rewrite <- (Qfloor_Z lo). apply Qfloor_resp_le. exact L.
  - rewrite <- (Qfloor_Z hi). apply Qfloor_resp_le. exact H.
Qed.

(** [x] between the two source ends, in either order, has covered a fraction
    between 0 and 1 of the source range. *)
Lemma fraction_bounds (x : Q) (X_min X_max : Z) :
  X_min <> X_max ->
  ((inject_Z X_min <= x /\ x <= inject_Z X_max) \/
   (inject_Z X_max <= x /\ x <= inject_Z X_min))%Q ->
  (0 <= (x - inject_Z X_min) / inject_Z (X_max - X_min) <= 1)%Q.
Proof.
  intros Hx Hb.
  pose proof (inject_Z_sub X_max X_min) as E.
  destruct (Z.lt_total X_min X_max) as [L | [L | L]]; [| lia |].
  - assert (P : (0 < inject_Z (X_max - X_min))%Q)
      by (rewrite <- (Zlt_Qlt 0); lia).
    assert (Q1 : (inject_Z X_min < inject_Z X_max)%Q)
      by (rewrite <- Zlt_Qlt; lia).
    destruct Hb as [[H1 H2] | [H1 H2]]; [| lra].
    split.
    + apply Qle_shift_div_l; [exact P | lra].
    + apply Qle_shift_div_r; [exact P | lra].
  - assert (P : (inject_Z (X_max - X_min) < 0)%Q)
      by (rewrite <- (Zlt_Qlt _ 0); lia).
    assert (Q1 : (inject_Z X_max < inject_Z X_min)%Q)
      by (rewrite <- Zlt_Qlt; lia).
    destruct Hb as [[H1 H2] | [H1 H2]]; [lra |].
    assert (R : ((x - inject_Z X_min) / inject_Z (X_max - X_min)
                 == (inject_Z X_min - x) / - inject_Z (X_max - X_min))%Q)
      by (field; lra).
    rewrite R. split.
    + apply Qle_shift_div_l; lra.
    + apply Qle_shift_div_r; lra.
Qed.

(** Without rounding, and with integer target ends in either order, the
    result stays between the target ends for every [x] between the source
    ends. *)
Lemma map_range_exact_in_range (x : Q) (X_min X_max Y_min Y_max : Z) :
  X_min <> X_max -> Y_min <> Y_max ->
  ((inject_Z X_min <= x /\ x <= inject_Z X_max) \/
   (inject_Z X_max <= x /\ x <= inject_Z X_min))%Q ->
  exists y, map_range_exact x X_min X_max Y_min Y_max = Some y /\
            Z.min Y_min Y_max <= y <= Z.max Y_min Y_max.
Proof.
  intros Hx Hy Hb.
  destruct (exact_value x X_min X_max Y_min Y_max Hx Hy) as [Em Ev].
  pose proof (fraction_bounds x X_min X_max Hx Hb) as Ht.
  set (t := ((x - inject_Z X_min) / inject_Z (X_max - X_min))%Q) in *.
  eexists; split; [exact Em |].
  pose proof (inject_Z_sub Y_max Y_min) as E.
  apply floor_between; rewrite Ev, E.
  - destruct (Z.min_spec Y_min Y_max) as [[L ->] | [L ->]].
    + assert (inject_Z Y_min < inject_Z Y_max)%Q
        by (rewrite <- Zlt_Qlt; lia).
      nra.
    + assert (inject_Z Y_max <= inject_Z Y_min)%Q
        by (rewrite <- Zle_Qle; lia).
      nra.
  - destruct (Z.max_spec Y_min Y_max) as [[L ->] | [L ->]].
    + assert (inject_Z Y_min < inject_Z Y_max)%Q
        by (rewrite <- Zlt_Qlt; lia).
      nra.
    + assert (inject_Z Y_max <= inject_Z Y_min)%Q
        by (rewrite <- Zle_Qle; lia).
      nra.
Qed.

(** Without rounding the two source ends are sent to the two target ends. *)
Lemma map_range_exact_ends (X_min X_max Y_min Y_max : Z) :
  X_min <> X_max -> Y_min <> Y_max ->
  map_range_exact (inject_Z X_min) X_min X_max Y_min Y_max = Some Y_min /\
  map_range_exact (inject_Z X_max) X_min X_max Y_min Y_max = Some Y_max.
Proof.
  intros Hx Hy.
  assert (Nx : ~ (inject_Z (X_max - X_min) == 0)%Q)
    by (apply inject_Z_nonzero; lia).
  pose proof (inject_Z_sub X_max X_min) as Ex.
  pose proof (inject_Z_sub Y_max Y_min) as Ey.
  split.
  - destruct (exact_value (inject_Z X_min) X_min X_max Y_min Y_max Hx Hy)
      as [-> Ev].
    f_equal. transitivity (Qfloor (inject_Z Y_min)); [| apply Qfloor_Z].
    apply Qfloor_comp. rewrite Ev. field. exact Nx.
  - destruct (exact_value (inject_Z X_max) X_min X_max Y_min Y_max Hx Hy)
      as [-> Ev].
    f_equal. transitivity (Qfloor (inject_Z Y_max)); [| apply Qfloor_Z].
    apply Qfloor_comp. rewrite Ev, Ey. rewrite Ex in Nx |- *.
    field. exact Nx.
Qed.

(** Where binary64 leaves the exact result: the same four arguments. *)
Example map_range_exact_vs_float :
  map_range_exact 1 0 1 0 93 = Some 93 /\
  map_range (PyFloat 1) 0 1 0 93 = Ok 92 /\
  map_range_exact 1 0 1 49 0 = Some 0 /\
  map_range (PyFloat 1) 0 1 49 0 = Ok (-1).
Proof. repeat split; vm_compute; reflexivity. Qed.

End ExactArithmetic.

(** ** The actuator pulse translators *)

Section PulseTranslators.

(** A throttle that is not positive takes the reverse branch, whose target
    range is [min_pulse .. zero_pulse]. *)
Lemma throttle_zero_branch (self : PWMThrottle.t) :
  pulse_of (PWMThrottle.run_threaded self (PyFloat 0)) =
    map_range (PyFloat 0) (-1) 0
      (PWMThrottle.min_pulse self) (PWMThrottle.zero_pulse self) /\
  pulse_of (PWMThrottle.run_threaded self (PyInt 0)) =
    map_range (PyInt 0) (-1) 0
      (PWMThrottle.min_pulse self) (PWMThrottle.zero_pulse self).
Proof.
  unfold PWMThrottle.run_threaded, pulse_of.
  change (Py.gt_zero (PyFloat 0)) with false.
  change (Py.gt_zero (PyInt 0)) with false.
  cbv iota. unfold PWMThrottle.MIN_THROTTLE.
  split.
  - destruct (map_range (PyFloat 0) _ _ _ _); reflexivity.
  - destruct (map_range (PyInt 0) _ _ _ _); reflexivity.
Qed.

(** With [min_pulse = zero_pulse] the zero throttle cannot be translated at
    all. *)
Lemma throttle_zero_raises_on_equal_bounds (self : PWMThrottle.t) :
  PWMThrottle.min_pulse self = PWMThrottle.zero_pulse self ->
  PWMThrottle.run_threaded self (PyInt 0) = Raise ZeroDivisionError /\
  PWMThrottle.run_threaded self (PyFloat 0) = Raise ZeroDivisionError.
Proof.
  intros E. unfold PWMThrottle.run_threaded.
  change (Py.gt_zero (PyFloat 0)) with false.
  change (Py.gt_zero (PyInt 0)) with false.
  cbv iota. rewrite E, !map_range_empty_target. split; reflexivity.
Qed.

(** C4: with the valid bounds [0 <= 93 <= 105] the throttle 0 (the float a
    stick at rest gives, or the [int] that [shutdown] passes) sets the pulse
    to 92, not to [zero_pulse]; with [min_pulse = zero_pulse = 90] it
    raises. *)
Theorem throttle_zero_misses_zero_pulse :
  pulse_of (PWMThrottle.run_threaded (throttle_part 105 0 93) (PyFloat 0))
    = Ok 92 /\
  pulse_of (PWMThrottle.run_threaded (throttle_part 105 0 93) (PyInt 0))
    = Ok 92 /\
  PWMThrottle.run_threaded (throttle_part 105 90 90) (PyInt 0)
    = Raise ZeroDivisionError.
Proof. repeat split; vm_compute; reflexivity. Qed.

(** The bounds that the class defaults and [config.py] provide translate
    the zero throttle to their [zero_pulse]. *)
Lemma throttle_zero_default_bounds :
  pulse_of (PWMThrottle.run_threaded (throttle_part 105 75 90) (PyFloat 0))
    = Ok 90 /\
  pulse_of (PWMThrottle.run_threaded (throttle_part 75 105 90) (PyFloat 0))
    = Ok 90.
Proof. split; vm_compute; reflexivity. Qed.

End PulseTranslators.

(** ** The motor controller *)

Section MotorController.

Variable self : ArduinoFirmata.t.

(** C5 as stated fails: when the retry fails too, its exception leaves
    [set_pulse]. *)
Lemma set_pulse_retry_failure_escapes :
  let b := {| faults := [true; true]; written := []; attempts := 0 |} in
  fst (ArduinoFirmata.set_pulse arduino_controller 5 90 b)
    = Raise (WriteError 2) /\
  fst (ArduinoFirmata.set_esc_pulse arduino_controller 90 b) <> Ok tt /\
  fst (ArduinoFirmata.set_servo_pulse arduino_controller 90 b) <> Ok tt.
Proof. split; [reflexivity | split; discriminate]. Qed.

(** C5, amended: [set_pulse] writes once; if that write raises it writes a
    second and last time.  It returns normally exactly when one of the two
    writes succeeds, and the exception of a failed retry escapes. *)
Theorem set_pulse_retries_once (pin angle : Z) (b : board) :
  let '(r, b') := ArduinoFirmata.set_pulse self pin angle b in
  r = (if nth_fault 0 b && nth_fault 1 b
       then Raise (WriteError (attempts b + 2))
       else Ok tt) /\
  attempts b' = (attempts b + (if nth_fault 0 b then 2 else 1))%nat /\
  written b' = (if nth_fault 0 b && nth_fault 1 b
                then written b
                else (pin, angle) :: written b).
Proof.
  unfold ArduinoFirmata.set_pulse, io_try, analog_write, nth_fault.
  destruct b as [fs w n]; cbn [faults written attempts].
  destruct fs as [| [|] [| [|] fs']]; cbn;
    repeat split; try reflexivity; try lia;
    do 2 f_equal; lia.
Qed.

(** The two public operations are [set_pulse] on their own pin. *)
Lemma set_servo_esc_pulse (angle : Z) (b : board) :
  ArduinoFirmata.set_servo_pulse self angle b =
    ArduinoFirmata.set_pulse self (ArduinoFirmata.servo_pin self) angle b /\
  ArduinoFirmata.set_esc_pulse self angle b =
    ArduinoFirmata.set_pulse self (ArduinoFirmata.esc_pin self) angle b.
Proof. split; reflexivity. Qed.

End MotorController.

(** ** The device decoder *)

Section Decoder.

Import Joystick.

Variable self : t.

(** The eight bytes of one input record and what follows them. *)
Variables b0 b1 b2 b3 b4 b5 b6 b7 : Byte.byte.
Variable rest : list Byte.byte.

Let record : list Byte.byte := [b0; b1; b2; b3; b4; b5; b6; b7].
Let value : Z :=
  let raw := u8 b4 + 2 ^ 8 * u8 b5 in
  if raw <? 2 ^ 15 then raw else raw - 2 ^ 16.
Let typev : Z := u8 b6.
Let number : Z := u8 b7.

Hypothesis opened : jsdev self = Some (record ++ rest).

Lemma poll_reads_record :
  poll self =
    let self' := with_jsdev self (Some rest) in
    if negb (Z.land typev 128 =? 0) then (Ok no_event, self')
    else
      match poll_button self' value typev number with
      | (Raise e, s1) => (Raise e, s1)
      | (Ok (button, button_state), s1) =>
          match poll_axis s1 value typev number with
          | (Raise e, s2) => (Raise e, s2)
          | (Ok (axis, axis_val), s2) =>
              (Ok (button, button_state, axis, axis_val), s2)
          end
      end.
Proof.
  unfold poll. rewrite opened. reflexivity.
Qed.

(** C8: a record whose type flags have bit 0x80 set produces no event,
    whatever its value and index, and the stored axis and button states
    stay as they were. *)
Theorem poll_discards_init_event :
  Z.land typev 128 <> 0 ->
  poll self = (Ok no_event, with_jsdev self (Some rest)) /\
  axis_states (snd (poll self)) = axis_states self /\
  button_states (snd (poll self)) = button_states self.
Proof.
  intros H. rewrite poll_reads_record.
  destruct (Z.eqb_spec (Z.land typev 128) 0) as [E | _]; [contradiction |].
  cbn. repeat split.
Qed.

(** The one case in which [poll] skips a flagged component: the name found
    at the record's index is the empty string.  Then [poll] returns without
    an exception, reports no state for the component and leaves both state
    tables as they were.  ([init] stores no empty name, see
    [init_logitech_names].) *)
Lemma poll_skips_empty_name :
  Z.land typev 128 = 0 ->
  (Z.land typev 1 <> 0 ->
     button_map self !! Z.to_nat number = Some ""%string) ->
  (Z.land typev 2 <> 0 ->
     axis_map self !! Z.to_nat number = Some ""%string) ->
  poll self =
    (Ok (if Z.land typev 1 =? 0 then None else Some ""%string, None,
         if Z.land typev 2 =? 0 then None else Some ""%string, None),
     with_jsdev self (Some rest)) /\
  axis_states (snd (poll self)) = axis_states self /\
  button_states (snd (poll self)) = button_states self.
Proof.
  intros H80 Hb Ha. rewrite poll_reads_record, H80.
  cbn [Z.eqb negb]. cbv iota. cbv zeta.
  unfold poll_button, poll_axis. cbn [button_map axis_map with_jsdev].
  destruct (Z.eqb_spec (Z.land typev 1) 0) as [E1 | E1];
    [| rewrite (Hb E1)];
    cbn [truthy button_map axis_map with_jsdev];
    (destruct (Z.eqb_spec (Z.land typev 2) 0) as [E2 | E2];
     [| rewrite (Ha E2)]);
    cbn; repeat split.
Qed.

End Decoder.

Section DecoderFacts.

Import Joystick.

Lemma poll_discards_init_event_witness :
  let s := sample_joystick
             [Byte.x10; Byte.x27; Byte.x00; Byte.x00;
              Byte.xff; Byte.x7f; Byte.x82; Byte.x00] in
  Z.land (u8 Byte.x82) 128 <> 0 /\
  poll s = (Ok no_event, with_jsdev s (Some [])) /\
  axis_states (snd (poll s)) = axis_states s /\
  button_states (snd (poll s)) = button_states s.
Proof.
  intros s. split; [vm_compute; discriminate |].
  apply (poll_discards_init_event s
           Byte.x10 Byte.x27 Byte.x00 Byte.x00
           Byte.xff Byte.x7f Byte.x82 Byte.x00 []);
    [reflexivity | vm_compute; discriminate].
Defined.


End DecoderFacts.

Section DecoderInit.

Import Joystick.

Lemma unknown_name_named (w : nat) (code : Z) : named (unknown_name w code).
Proof. reflexivity. Qed.

Lemma logitech_axis_names_named (k : Z) (v : string) :
  logitech_axis_names !! k = Some v -> named v.
Proof.
  intros H. apply elem_of_list_to_map_2 in H.
  repeat (apply elem_of_cons in H as [H | H];
          [injection H as _ ->; reflexivity |]).
  inversion H.
Qed.

Lemma logitech_button_names_named (k : Z) (v : string) :
  logitech_button_names !! k = Some v -> named v.
Proof.
  intros H. apply elem_of_list_to_map_2 in H.
  repeat (apply elem_of_cons in H as [H | H];
          [injection H as _ ->; reflexivity |]).
  inversion H.
Qed.

(** [init] on the Logitech profile gives every reported axis and button a
    non-empty name: a code the profile does not know gets the label
    [unknown(0x..)]. *)
Lemma init_logitech_names (dev : device) :
  Forall named (axis_map (init logitech dev)) /\
  Forall named (button_map (init logitech dev)).
Proof.
  unfold init; cbn [axis_map button_map logitech app].
  split; apply Forall_forall; intros n Hn; apply list_elem_of_In in Hn;
    apply in_map_iff in Hn; destruct Hn as [c [<- _]].
  - unfold axis_name_of; cbn [axis_names logitech].
    destruct (logitech_axis_names !! c) as [v |] eqn:E; cbn.
    + exact (logitech_axis_names_named c v E).
    + apply unknown_name_named.
  - unfold button_name_of; cbn [button_names logitech].
    destruct (logitech_button_names !! c) as [v |] eqn:E; cbn.
    + exact (logitech_button_names_named c v E).
    + apply unknown_name_named.
Qed.

End DecoderInit.

(** ** Binary64 arithmetic

    Facts about the rounding of binary64, proved from the specification of
    the primitive floats ([SpecFloat]), for the one computation whose sign
    decides a transition of the emergency stop: [-1.0 * s + 0.05]. *)

Section Binary64.

Lemma digits2_pos_bound (m : positive) : Z.pos m < 2 ^ Z.pos (digits2_pos m).
Proof.
  induction m as [m IH | m IH |]; cbn [digits2_pos].
  - rewrite Pos2Z.inj_succ, Z.pow_succ_r by apply Pos2Z.is_nonneg. lia.
  - rewrite Pos2Z.inj_succ, Z.pow_succ_r by apply Pos2Z.is_nonneg. lia.
  - reflexivity.
Qed.

Lemma digits2_pos_xO (m : positive) :
  Z.pos (digits2_pos m~0) = Z.pos (digits2_pos m) + 1.
Proof. cbn [digits2_pos]. apply Pos2Z.inj_succ. Qed.

(** What [valid_binary] says of a finite binary64 value. *)
Lemma bounded_facts (m : positive) (e : Z) :
  SpecFloat.bounded prec emax m e = true ->
  Z.pos (digits2_pos m) <= 53 /\ -1074 <= e <= 971 /\
  fexp prec emax (Z.pos (digits2_pos m) + e) = e.
Proof.
  unfold SpecFloat.bounded, canonical_mantissa, fexp, emin.
  intros H. apply andb_prop in H as [H1 H2].
  apply Z.eqb_eq in H1. apply Z.leb_le in H2.
  change prec with 53 in *. change emax with 1024 in *. lia.
Qed.

(** The product with -1.0 is exact: it only flips the sign. *)
Lemma mul_neg_one (sg : bool) (m : positive) (e : Z) :
  SpecFloat.bounded prec emax m e = true ->
  SF64mul (S754_finite true 4503599627370496 (-52)) (S754_finite sg m e)
  = S754_finite (negb sg) m e.
Proof.
  intros B. destruct (bounded_facts m e B) as [D [E F]].
  unfold SF64mul, SFmul.
  change (Pos.mul 4503599627370496 m) with (Pos.iter xO m 52).
  cbn [Pos.iter].
  unfold binary_round_aux, shr_fexp. cbn [Zdigits2].
  rewrite !digits2_pos_xO.
  match goal with
  | |- context [fexp prec emax ?x] =>
      replace x with (Z.pos (digits2_pos m) + e) by lia
  end.
  rewrite F. replace (e - (-52 + e)) with 52 by lia.
  cbn [shr shr_record_of_loc SpecFloat.iter_pos shr_1 orb shr_m
       loc_of_shr_record round_nearest_even Zdigits2].
  replace (-52 + e + 52) with e by lia.
  rewrite F, Z.sub_diag. cbn [shr shr_m shr_record_of_loc].
  replace (e <=? emax - prec) with true
    by (symmetry; apply Z.leb_le; change (emax - prec) with 971; lia).
  destruct sg; reflexivity.
Qed.

Lemma digits2_pos_lower (m : positive) :
  2 ^ (Z.pos (digits2_pos m) - 1) <= Z.pos m.
Proof.
  induction m as [m IH | m IH |]; cbn [digits2_pos].
  - rewrite Pos2Z.inj_succ.
    replace (Z.succ (Z.pos (digits2_pos m)) - 1)
      with (Z.succ (Z.pos (digits2_pos m) - 1)) by lia.
    rewrite Z.pow_succ_r by lia. lia.
  - rewrite Pos2Z.inj_succ.
    replace (Z.succ (Z.pos (digits2_pos m)) - 1)
      with (Z.succ (Z.pos (digits2_pos m) - 1)) by lia.
    rewrite Z.pow_succ_r by lia. lia.
  - reflexivity.
Qed.

Lemma shl_align_value (mx : positive) (ex ex' : Z) :
  ex' <= ex ->
  Z.pos (fst (shl_align mx ex ex')) = Z.pos mx * 2 ^ (ex - ex').
Proof.
  intros H. unfold shl_align.
  destruct (ex' - ex) as [| d | d] eqn:E; [| lia |].
  - replace (ex - ex') with 0 by lia. cbn [fst]. lia.
  - cbn [fst]. change (Pos.iter xO mx d) with (shift_pos d mx).
    rewrite shift_pos_correct.
    replace (ex - ex') with (Z.pos d) by lia.
    change (Zpower_pos 2 d) with (2 ^ Z.pos d). lia.
Qed.

Lemma shr_1_m (r : shr_record) :
  0 <= shr_m r -> shr_m (shr_1 r) = shr_m r / 2.
Proof.
  destruct r as [m r s]. cbn [shr_m]. intros H.
  destruct m as [| [p | p |] | p]; cbn [shr_1 shr_m]; try reflexivity.
  - rewrite Pos2Z.inj_xI. apply Z.div_unique with 1; lia.
  - rewrite Pos2Z.inj_xO. apply Z.div_unique with 0; lia.
  - lia.
Qed.

(** [n] steps of [shr_1] divide the mantissa by [2 ^ n]. *)
Lemma iter_shr_m (n : positive) (r : shr_record) :
  0 <= shr_m r ->
  shr_m (SpecFloat.iter_pos shr_1 n r) = shr_m r / 2 ^ Z.pos n.
Proof.
  revert r. induction n as [n IH | n IH |]; intros r H;
    cbn [SpecFloat.iter_pos].
  - assert (P : 0 < 2 ^ Z.pos n) by (apply Z.pow_pos_nonneg; lia).
    assert (H1 : 0 <= shr_m (shr_1 r)).
    { rewrite shr_1_m by exact H. apply Z.div_pos; lia. }
    assert (H2 : 0 <= shr_m (SpecFloat.iter_pos shr_1 n (shr_1 r))).
    { rewrite IH by exact H1. apply Z.div_pos; assumption. }
    rewrite IH, IH, shr_1_m by assumption.
    rewrite (Pos2Z.inj_xI n).
    replace (2 * Z.pos n + 1) with (1 + Z.pos n + Z.pos n) by lia.
    rewrite !Z.pow_add_r, Z.pow_1_r by lia.
    rewrite !Z.div_div by lia. f_equal. ring.
  - assert (P : 0 < 2 ^ Z.pos n) by (apply Z.pow_pos_nonneg; lia).
    assert (H1 : 0 <= shr_m (SpecFloat.iter_pos shr_1 n r)).
    { rewrite IH by exact H. apply Z.div_pos; assumption. }
    rewrite IH, IH by assumption.
    rewrite (Pos2Z.inj_xO n).
    replace (2 * Z.pos n) with (Z.pos n + Z.pos n) by lia.
    rewrite Z.pow_add_r by lia.
    rewrite Z.div_div by lia. reflexivity.
  - rewrite shr_1_m by exact H. reflexivity.
Qed.


Lemma shr_record_of_loc_m (m : Z) (l : location) :
  shr_m (shr_record_of_loc m l) = m.
Proof. destruct l as [| []]; reflexivity. Qed.

Lemma fexp_cases (x : Z) :
  fexp prec emax x = x - 53 /\ -1074 <= x - 53 \/
  fexp prec emax x = -1074 /\ x - 53 <= -1074.
Proof.
  unfold fexp, emin. change prec with 53. change emax with 1024. lia.
Qed.

(** Rounding the mantissa of a non-zero value at an exponent that is not
    below the smallest one never shifts all of its digits out. *)
Lemma shr_fexp_pos (p : positive) (e : Z) (l : location) :
  -1074 <= e ->
  0 < shr_m (fst (shr_fexp prec emax (Z.pos p) e l)) /\
  -1074 <= snd (shr_fexp prec emax (Z.pos p) e l).
Proof.
  intros He. unfold shr_fexp, shr. cbn [Zdigits2].
  pose proof (digits2_pos_lower p) as L.
  destruct (fexp_cases (Z.pos (digits2_pos p) + e)) as [[-> F] | [-> F]].
  - destruct (Z.pos (digits2_pos p) + e - 53 - e) as [| k | k] eqn:K;
      cbn [fst snd]; rewrite ?shr_record_of_loc_m; [lia | | lia].
    rewrite iter_shr_m by (rewrite shr_record_of_loc_m; lia).
    rewrite shr_record_of_loc_m. split; [| lia].
    apply Z.div_str_pos. split; [apply Z.pow_pos_nonneg; lia |].
    eapply Z.le_trans; [| exact L]. apply Z.pow_le_mono_r; lia.
  - destruct (-1074 - e) as [| k | k] eqn:K;
      cbn [fst snd]; rewrite ?shr_record_of_loc_m; lia.
Qed.

Lemma round_nearest_even_pos (m : Z) (l : location) :
  0 < m -> 0 < round_nearest_even m l.
Proof.
  intros H. unfold round_nearest_even.
  destruct l as [| []]; try destruct (Z.even m); lia.
Qed.

(** The rounded value of a negative number, held at an exponent that is not
    below the smallest one, is negative: it is not rounded to zero. *)
Lemma binary_round_aux_neg (p : positive) (e : Z) (l : location) :
  -1074 <= e ->
  SFleb (S754_zero false) (binary_round_aux prec emax true (Z.pos p) e l)
  = false.
Proof.
  intros He. unfold binary_round_aux.
  destruct (shr_fexp_pos p e l He) as [M1 E1].
  destruct (shr_fexp prec emax (Z.pos p) e l) as [mrs' e'].
  cbn [fst snd] in M1, E1.
  pose proof (round_nearest_even_pos _ (loc_of_shr_record mrs') M1) as M2.
  destruct (round_nearest_even (shr_m mrs') (loc_of_shr_record mrs'))
    as [| q | q]; [lia | | lia].
  destruct (shr_fexp_pos q e' loc_Exact E1) as [M3 _].
  destruct (shr_fexp prec emax (Z.pos q) e' loc_Exact) as [mrs'' e''].
  cbn [fst] in M3.
  destruct (shr_m mrs'') as [| r | r]; [lia | | lia].
  destruct (e'' <=? emax - prec); reflexivity.
Qed.

Lemma binary_normalize_neg (z e : Z) :
  z < 0 -> -1074 <= e ->
  SFleb (S754_zero false) (binary_normalize prec emax z e false) = false.
Proof.
  intros H He. destruct z as [| p | p]; [lia | lia |].
  cbn [binary_normalize]. unfold binary_round, shl_align.
  destruct (fexp_cases (Z.pos (digits2_pos p) + e)) as [[-> F] | [-> F]].
  - destruct (Z.pos (digits2_pos p) + e - 53 - e) as [| k | k] eqn:K;
      apply binary_round_aux_neg; lia.
  - destruct (-1074 - e) as [| k | k] eqn:K;
      apply binary_round_aux_neg; lia.
Qed.

Lemma shr_1_nonneg (r : shr_record) : 0 <= shr_m r -> 0 <= shr_m (shr_1 r).
Proof.
  intros H. rewrite shr_1_m by exact H. apply Z.div_pos; lia.
Qed.

Lemma shr_fexp_nonneg (m e : Z) (l : location) :
  0 <= m -> 0 <= shr_m (fst (shr_fexp prec emax m e l)).
Proof.
  intros H. unfold shr_fexp, shr.
  destruct (fexp prec emax (Zdigits2 m + e) - e) as [| p | p]; cbn [fst];
    rewrite ?shr_record_of_loc_m; try exact H.
  rewrite iter_shr_m by (rewrite shr_record_of_loc_m; exact H).
  rewrite shr_record_of_loc_m. apply Z.div_pos; [exact H |].
  apply Z.pow_pos_nonneg; lia.
Qed.

Lemma round_nearest_even_nonneg (m : Z) (l : location) :
  0 <= m -> 0 <= round_nearest_even m l.
Proof.
  intros H. unfold round_nearest_even.
  destruct l as [| []]; try destruct (Z.even m); lia.
Qed.

(** The rounded value of a number that is not negative is not negative, and
    it is not a NaN. *)
Lemma binary_round_aux_nonneg (m : positive) (e : Z) (l : location) :
  SFleb (S754_zero false) (binary_round_aux prec emax false (Z.pos m) e l)
  = true.
Proof.
  unfold binary_round_aux.
  pose proof (shr_fexp_nonneg (Z.pos m) e l ltac:(lia)) as N1.
  destruct (shr_fexp prec emax (Z.pos m) e l) as [mrs' e'].
  cbn [fst] in N1.
  pose proof (shr_fexp_nonneg
                (round_nearest_even (shr_m mrs') (loc_of_shr_record mrs'))
                e' loc_Exact
                (round_nearest_even_nonneg _ _ N1)) as N2.
  destruct (shr_fexp prec emax _ e' loc_Exact) as [mrs'' e''].
  cbn [fst] in N2.
  destruct (shr_m mrs'') as [| p | p]; [reflexivity | | lia].
  destruct (e'' <=? emax - prec); reflexivity.
Qed.

Lemma binary_normalize_nonneg (z e : Z) :
  0 <= z ->
  SFleb (S754_zero false) (binary_normalize prec emax z e false) = true.
Proof.
  intros H. destruct z as [| p | p]; [reflexivity | | lia].
  cbn [binary_normalize]. unfold binary_round.
  destruct (shl_align p e _) as [mz ez]. apply binary_round_aux_nonneg.
Qed.

Lemma Prim2SF_zero : Prim2SF 0%float = S754_zero false.
Proof. reflexivity. Qed.

Lemma Prim2SF_neg_one :
  Prim2SF (-1.0)%float = S754_finite true 4503599627370496 (-52).
Proof. reflexivity. Qed.

Lemma Prim2SF_ramp_step :
  Prim2SF 0.05%float = S754_finite false 7205759403792794 (-57).
Proof. reflexivity. Qed.

(** The first step of the ramp, [-1.0 * s + 0.05] as binary64 computes it, is
    at least zero exactly when [s] is at most 0.05. *)
Lemma first_ramp_step (s : float) :
  (0 <=? -1.0 * s + 0.05)%float = (s <=? 0.05)%float.
Proof.
  rewrite !leb_spec, add_spec, mul_spec.
  rewrite Prim2SF_zero, Prim2SF_neg_one, Prim2SF_ramp_step.
  pose proof (Prim2SF_valid s) as V.
  destruct (Prim2SF s) as [sg | sg | | sg m e];
    [destruct sg; reflexivity | destruct sg; reflexivity | reflexivity |].
  cbn [valid_binary] in V. rewrite (mul_neg_one sg m e V).
  destruct (bounded_facts m e V) as [D [E F]].
  pose proof (digits2_pos_bound m) as Um.
  pose proof (digits2_pos_lower m) as Lm.
  assert (Hm : Z.pos m < 2 ^ 53).
  { eapply Z.lt_le_trans; [exact Um |].
    apply Z.pow_le_mono_r; [reflexivity | exact D]. }
  change (2 ^ 53) with 9007199254740992 in Hm.
  unfold SF64add, SFadd.
  destruct sg; cbn [negb cond_Zopp].
  - (* a negative [s]: the sum of two positive numbers *)
    transitivity true; [| reflexivity].
    apply binary_normalize_nonneg.
    apply Z.add_nonneg_nonneg; apply Pos2Z.is_nonneg.
  - rewrite !shl_align_value by apply Z.le_min_l || apply Z.le_min_r.
    unfold SFleb at 2. unfold SFcompare.
    destruct (Z.compare_spec e (-57)) as [C | C | C].
    + (* the exponent of 0.05: the mantissas decide *)
      subst e. rewrite Z.min_id, !Z.sub_diag. change (2 ^ 0) with 1.
      rewrite (Z.mul_1_r (Z.pos m)), (Z.mul_1_r 7205759403792794).
      destruct (Pos.compare_cont Eq m 7205759403792794) eqn:K.
      * apply binary_normalize_nonneg.
        apply (Pos.compare_eq m) in K. rewrite K. discriminate.
      * apply binary_normalize_nonneg.
        assert (K' : Z.pos m < 7205759403792794) by exact K.
        clear V F Um Lm K. lia.
      * apply binary_normalize_neg; [| discriminate].
        assert (K' : Z.pos m > 7205759403792794) by exact K.
        clear V F Um Lm K. lia.
    + (* a smaller exponent: [s] is below 2^-57 * 2^53 *)
      rewrite Z.min_l by (clear V F Um Lm; lia).
      rewrite Z.sub_diag. change (2 ^ 0) with 1.
      rewrite (Z.mul_1_r (Z.pos m)).
      apply binary_normalize_nonneg.
      assert (Hp : 2 ^ 1 <= 2 ^ (-57 - e))
        by (apply Z.pow_le_mono_r; [reflexivity | clear V F Um Lm; lia]).
      change (2 ^ 1) with 2 in Hp.
      clear V F Um Lm.
      generalize dependent (2 ^ (-57 - e)). intros p Hp. lia.
    + (* a larger exponent: [s] is normal and at least 2^52 * 2^-56 *)
      rewrite Z.min_r by (clear V F Um Lm; lia).
      rewrite Z.sub_diag. change (2 ^ 0) with 1.
      rewrite (Z.mul_1_r 7205759403792794).
      apply binary_normalize_neg; [| discriminate].
      assert (Dm : Z.pos (digits2_pos m) = 53).
      { destruct (fexp_cases (Z.pos (digits2_pos m) + e)) as [[G _] | [G _]];
          rewrite G in F; clear V Um Lm; lia. }
      rewrite Dm in Lm. change (2 ^ (53 - 1)) with 4503599627370496 in Lm.
      assert (Hp : 2 ^ 1 <= 2 ^ (e - -57))
        by (apply Z.pow_le_mono_r; [reflexivity | clear V F Um Lm; lia]).
      change (2 ^ 1) with 2 in Hp.
      clear V F Um.
      generalize dependent (2 ^ (e - -57)). intros p Hp.
      assert (4503599627370496 * 2 <= Z.pos m * p)
        by (apply Z.mul_le_mono_nonneg; lia).
      lia.
Qed.
End Binary64.

(** ** The emergency stop and the per-tick output *)

Section Controller.

Import JoystickController.
Local Open Scope float_scope.

Lemma estop_cases (s : t) :
  estop_valid s ->
  estop_state s = ES_IDLE \/ estop_state s = ES_START \/
  estop_state s = ES_THROTTLE_NEG_ONE \/
  estop_state s = ES_THROTTLE_POS_ONE \/
  estop_state s = ES_THROTTLE_NEG_TWO.
Proof.
  unfold estop_valid, ES_IDLE, ES_START, ES_THROTTLE_NEG_ONE,
    ES_THROTTLE_POS_ONE, ES_THROTTLE_NEG_TWO. lia.
Qed.

Ltac estop_constant :=
  unfold estop_valid;
  cbn [snd estop_state with_estop_state with_throttle];
  vm_compute; split; discriminate.

Lemma init_estop_valid (ts ss td : float) (auto : bool) :
  estop_valid (init ts ss td auto).
Proof. unfold estop_valid; cbn; unfold ES_IDLE, ES_THROTTLE_NEG_TWO; lia. Qed.

Lemma emergency_stop_estop_valid (s : t) : estop_valid (emergency_stop s).
Proof.
  unfold estop_valid; cbn; unfold ES_IDLE, ES_START, ES_THROTTLE_NEG_TWO; lia.
Qed.

(** Every button and axis operation other than [emergency_stop] leaves
    [estop_state] alone. *)
Lemma operations_keep_estop_state (s : t) (v : float) :
  estop_state (set_steering s v) = estop_state s /\
  estop_state (set_throttle s v) = estop_state s /\
  estop_state (toggle_manual_recording s) = estop_state s /\
  estop_state (increase_max_throttle s) = estop_state s /\
  estop_state (decrease_max_throttle s) = estop_state s /\
  estop_state (toggle_constant_throttle s) = estop_state s /\
  estop_state (toggle_mode s) = estop_state s /\
  estop_state (chaos_monkey_on_left s) = estop_state s /\
  estop_state (chaos_monkey_on_right s) = estop_state s /\
  estop_state (chaos_monkey_off s) = estop_state s.
Proof.
  unfold set_throttle, toggle_manual_recording, increase_max_throttle,
    decrease_max_throttle, toggle_constant_throttle, toggle_mode,
    on_throttle_changes.
  cbn [constant_throttle auto_record_on_throttle recording mode
       with_throttle with_throttle_scale with_last_throttle_axis_val
       with_constant_throttle].
  destruct (auto_record_on_throttle s), (constant_throttle s),
    (recording s), (String.eqb (mode s) "user"),
    (String.eqb (mode s) "local_angle"); repeat split.
Qed.

(** One tick in each of the four active states. *)
Lemma tick_start (s : t) :
  estop_state s = ES_START ->
  run_threaded s =
    ((0, -1.0 * throttle_scale s, mode s, false),
     with_estop_state s ES_THROTTLE_NEG_ONE).
Proof. intros E. unfold run_threaded. rewrite E. reflexivity. Qed.

Lemma tick_neg_one (s : t) :
  estop_state s = ES_THROTTLE_NEG_ONE ->
  run_threaded s =
    ((0, 0.01, mode s, false), with_estop_state s ES_THROTTLE_POS_ONE).
Proof. intros E. unfold run_threaded. rewrite E. reflexivity. Qed.

Lemma tick_pos_one (s : t) :
  estop_state s = ES_THROTTLE_POS_ONE ->
  run_threaded s =
    ((0, -1.0 * throttle_scale s, mode s, false),
     with_throttle (with_estop_state s ES_THROTTLE_NEG_TWO)
       (-1.0 * throttle_scale s)).
Proof. intros E. unfold run_threaded. rewrite E. reflexivity. Qed.

Lemma tick_neg_two (s : t) :
  estop_state s = ES_THROTTLE_NEG_TWO ->
  run_threaded s =
    if 0 <=? throttle s + 0.05
    then ((0, 0, mode s, false),
          with_estop_state (with_throttle s 0) ES_IDLE)
    else ((0, throttle s + 0.05, mode s, false),
          with_throttle s (throttle s + 0.05)).
Proof.
  intros E. unfold run_threaded. rewrite E.
  cbn -[PrimFloat.leb PrimFloat.add].
  destruct (0 <=? throttle s + 0.05); reflexivity.
Qed.

Lemma tick_idle (s : t) :
  estop_state s = ES_IDLE ->
  run_threaded s =
    (match chaos_monkey_steering s with
     | Some bias => (bias, throttle s, mode s, false)
     | None => (angle s, throttle s, mode s, recording s)
     end, s).
Proof.
  intros E. unfold run_threaded. rewrite E.
  destruct (chaos_monkey_steering s); reflexivity.
Qed.

Lemma run_threaded_estop_valid (s : t) :
  estop_valid s -> estop_valid (snd (run_threaded s)).
Proof.
  intros H. destruct (estop_cases s H) as [E | [E | [E | [E | E]]]].
  - rewrite (tick_idle s E). exact H.
  - rewrite (tick_start s E). estop_constant.
  - rewrite (tick_neg_one s E). estop_constant.
  - rewrite (tick_pos_one s E). estop_constant.
  - rewrite (tick_neg_two s E).
    destruct (0 <=? throttle s + 0.05);
      [estop_constant | exact H].
Qed.

(** The first four ticks after [emergency_stop]: the throttles
    [-throttle_scale], [0.01], [-throttle_scale], and then the first step of
    the ramp, which ends the sequence when [-throttle_scale + 0.05 >= 0]. *)
Lemma estop_four_ticks (s : t) :
  estop_state s = ES_START ->
  let ramp1 := -1.0 * throttle_scale s + 0.05 in
  let '(outs, s') := ticks 4 s in
  map out_angle outs = [0; 0; 0; 0] /\
  map out_recording outs = [false; false; false; false] /\
  map out_throttle outs =
    [-1.0 * throttle_scale s; 0.01; -1.0 * throttle_scale s;
     if 0 <=? ramp1 then 0 else ramp1] /\
  estop_state s' = (if 0 <=? ramp1 then ES_IDLE else ES_THROTTLE_NEG_TWO) /\
  throttle s' = (if 0 <=? ramp1 then 0 else ramp1).
Proof.
  intros E ramp1. unfold ticks.
  rewrite (tick_start s E).
  rewrite tick_neg_one by reflexivity.
  rewrite tick_pos_one by reflexivity.
  rewrite tick_neg_two by reflexivity.
  cbn [throttle with_throttle with_estop_state throttle_scale mode].
  fold ramp1. destruct (0 <=? ramp1); cbn; repeat split.
Qed.

Lemma ticks_app (n m : nat) (s : t) :
  ticks (n + m) s =
    let '(o1, s1) := ticks n s in
    let '(o2, s2) := ticks m s1 in
    (o1 ++ o2, s2).
Proof.
  revert s. induction n as [| n IH]; intros s; cbn [ticks Nat.add].
  - destruct (ticks m s); reflexivity.
  - destruct (run_threaded s) as [o s1]. rewrite IH.
    destruct (ticks n s1) as [o1 s2]. destruct (ticks m s2). reflexivity.
Qed.

Lemma ramp_shift (n : nat) (t : float) : ramp n (t + 0.05) = ramp n t + 0.05.
Proof.
  induction n as [| n IH]; cbn [ramp]; [reflexivity | rewrite IH; reflexivity].
Qed.

Lemma with_throttle_same (s : t) : with_throttle s (throttle s) = s.
Proof. destruct s; reflexivity. Qed.

(** While the sums stay below zero the machine stays in
    [ES_THROTTLE_NEG_TWO] and puts them out one per tick. *)
Lemma ticks_ramp (n : nat) (s : t) :
  estop_state s = ES_THROTTLE_NEG_TWO ->
  (forall k, (1 <= k <= n)%nat -> (0 <=? ramp k (throttle s)) = false) ->
  ticks n s =
    (map (fun k => (0, ramp k (throttle s), mode s, false)) (seq 1 n),
     with_throttle s (ramp n (throttle s))).
Proof.
  revert s. induction n as [| n IH]; intros s E H.
  - cbn. rewrite with_throttle_same. reflexivity.
  - cbn [ticks]. rewrite (tick_neg_two s E).
    pose proof (H 1%nat ltac:(lia)) as H1. cbn [ramp] in H1. rewrite H1.
    rewrite IH; cbn [estop_state throttle mode with_throttle].
    + cbn [seq map ramp]. rewrite <- (seq_shift n 1), map_map.
      f_equal; [f_equal |].
      * apply map_ext. intros k. rewrite ramp_shift. reflexivity.
      * rewrite ramp_shift. reflexivity.
    + exact E.
    + intros k Hk. rewrite ramp_shift. apply (H (S k)). lia.
Qed.

Lemma map_const_seq {A : Type} (c : A) (n start : nat) :
  map (fun _ : nat => c) (seq start n) = repeat c n.
Proof.
  revert start. induction n as [| n IH]; intros start; cbn;
    [reflexivity | rewrite IH; reflexivity].
Qed.

(** The whole sequence: from [ES_START] the machine puts out the throttles
    [-throttle_scale], [0.01], [-throttle_scale] and then the sums
    [-throttle_scale + 0.05 + ... + 0.05]; with [n] the number of sums that
    are still below zero, it reaches [ES_IDLE] with throttle 0.0 after
    exactly [4 + n] ticks and not before.  Every output on the way has angle
    0.0 and recording [false]. *)
Lemma estop_reaches_idle (s : t) (n : nat) :
  estop_state s = ES_START ->
  (forall k, (1 <= k <= n)%nat ->
     (0 <=? ramp k (-1.0 * throttle_scale s)) = false) ->
  (0 <=? ramp (S n) (-1.0 * throttle_scale s)) = true ->
  let '(outs, s') := ticks (4 + n) s in
  estop_state s' = ES_IDLE /\
  throttle s' = 0 /\
  map out_angle outs = repeat 0 (4 + n) /\
  map out_recording outs = repeat false (4 + n) /\
  map out_throttle outs =
    [-1.0 * throttle_scale s; 0.01; -1.0 * throttle_scale s]
    ++ map (fun k => ramp k (-1.0 * throttle_scale s)) (seq 1 n) ++ [0] /\
  forall m, (m < 4 + n)%nat -> estop_state (snd (ticks m s)) <> ES_IDLE.
Proof.
  intros E Hneg Hend.
  set (t0 := -1.0 * throttle_scale s) in *.
  set (s3 := with_throttle (with_estop_state s ES_THROTTLE_NEG_TWO) t0).
  assert (T3 : ticks 3 s =
               ([(0, t0, mode s, false); (0, 0.01, mode s, false);
                 (0, t0, mode s, false)], s3)).
  { unfold ticks. rewrite (tick_start s E).
    rewrite tick_neg_one by reflexivity.
    rewrite tick_pos_one by reflexivity. reflexivity. }
  assert (R : forall j, (j <= n)%nat ->
              ticks j s3 =
                (map (fun k => (0, ramp k t0, mode s, false)) (seq 1 j),
                 with_throttle s3 (ramp j t0))).
  { intros j Hj. apply (ticks_ramp j s3); [reflexivity |].
    intros k Hk. apply Hneg. lia. }
  replace (4 + n)%nat with (3 + (n + 1))%nat by lia.
  rewrite ticks_app, T3, ticks_app, (R n (Nat.le_refl n)).
  cbn [ticks]. rewrite tick_neg_two by reflexivity.
  cbn [throttle with_throttle mode].
  change (ramp n t0 + 0.05) with (ramp (S n) t0).
  rewrite Hend. cbn [estop_state with_estop_state throttle with_throttle].
  repeat split.
  - rewrite !map_app, map_map. cbn [map out_angle fst app].
    rewrite map_const_seq.
    replace (3 + (n + 1))%nat with (3 + n + 1)%nat by lia.
    rewrite repeat_app. reflexivity.
  - rewrite !map_app, map_map. cbn [map out_recording snd app].
    rewrite map_const_seq.
    replace (3 + (n + 1))%nat with (3 + n + 1)%nat by lia.
    rewrite repeat_app. reflexivity.
  - rewrite !map_app, map_map. reflexivity.
  - intros m Hm.
    destruct (Nat.lt_ge_cases m 3) as [Lt | Ge].
    + destruct m as [| [| [| m]]]; [| | | lia]; unfold ticks;
        rewrite ?(tick_start s E); rewrite ?tick_neg_one by reflexivity;
        cbn [snd estop_state with_estop_state]; try rewrite E; discriminate.
    + replace m with (3 + (m - 3))%nat by lia.
      rewrite ticks_app, T3, (R (m - 3)%nat ltac:(lia)).
      cbn [snd estop_state with_estop_state with_throttle]. discriminate.
Qed.

(** Before the fourth tick the machine is never idle. *)
Lemma estop_first_ticks_busy (s : t) (m : nat) :
  estop_state s = ES_START ->
  (m < 4)%nat ->
  estop_state (snd (ticks m s)) <> ES_IDLE.
Proof.
  intros E Hm.
  destruct m as [| [| [| [| m]]]]; [| | | | lia]; unfold ticks;
    rewrite ?(tick_start s E);
    rewrite ?tick_neg_one by reflexivity;
    rewrite ?tick_pos_one by reflexivity;
    cbn [snd estop_state with_estop_state with_throttle];
    try rewrite E; discriminate.
Qed.

(** When no sum of the ramp ever reaches zero, the machine never leaves
    [ES_THROTTLE_NEG_TWO] once it is there. *)
Lemma estop_never_idle (s : t) (m : nat) :
  estop_state s = ES_START ->
  (forall k, (1 <= k)%nat ->
     (0 <=? ramp k (-1.0 * throttle_scale s)) = false) ->
  estop_state (snd (ticks m s)) <> ES_IDLE /\
  map out_angle (fst (ticks m s)) = repeat 0 m /\
  map out_recording (fst (ticks m s)) = repeat false m.
Proof.
  intros E Hneg.
  set (t0 := -1.0 * throttle_scale s) in *.
  set (s3 := with_throttle (with_estop_state s ES_THROTTLE_NEG_TWO) t0).
  assert (T3 : ticks 3 s =
               ([(0, t0, mode s, false); (0, 0.01, mode s, false);
                 (0, t0, mode s, false)], s3)).
  { unfold ticks. rewrite (tick_start s E).
    rewrite tick_neg_one by reflexivity.
    rewrite tick_pos_one by reflexivity. reflexivity. }
  destruct (Nat.lt_ge_cases m 3) as [Lt | Ge].
  - destruct m as [| [| [| m]]]; [| | | lia]; unfold ticks;
      rewrite ?(tick_start s E); rewrite ?tick_neg_one by reflexivity;
      cbn [fst snd estop_state with_estop_state map out_angle out_recording
           repeat];
      (split; [try rewrite E; discriminate | split; reflexivity]).
  - assert (J : exists j, m = (3 + j)%nat) by (exists (m - 3)%nat; lia).
    destruct J as [j ->].
    rewrite ticks_app, T3.
    rewrite (ticks_ramp j s3 eq_refl)
      by (intros k Hk; apply Hneg; lia).
    cbn [fst snd estop_state with_estop_state with_throttle].
    split; [discriminate |].
    rewrite !map_app, !map_map. cbn [map out_angle out_recording fst snd].
    rewrite !map_const_seq. split; reflexivity.
Qed.

(** C1, amended: from [ES_START], exactly four ticks reach [ES_IDLE] with
    throttle 0.0 when [throttle_scale <= 0.05]; for any other
    [throttle_scale] the fourth tick leaves the machine in
    [ES_THROTTLE_NEG_TWO] with the throttle [-throttle_scale + 0.05], and
    the machine is not idle before the fourth tick.  When [ES_IDLE] is
    reached is read off the sums [-throttle_scale + 0.05 + ... + 0.05]
    ([ramp]): with [n] the number of sums that are still below zero,
    [ES_IDLE] is reached with throttle 0.0 after exactly [4 + n] ticks and
    not before, the throttles put out being [-throttle_scale], [0.01],
    [-throttle_scale], the [n] sums and 0.0; when no sum ever reaches zero,
    [ES_IDLE] is never reached.  Every output on the way has angle 0.0 and
    recording [false]. *)
Theorem estop_four_ticks_scale (s : t) :
  estop_state s = ES_START ->
  let t0 := -1.0 * throttle_scale s in
  (let '(outs, s') := ticks 4 s in
   map out_angle outs = [0; 0; 0; 0] /\
   map out_recording outs = [false; false; false; false] /\
   (forall m, (m < 4)%nat -> estop_state (snd (ticks m s)) <> ES_IDLE) /\
   ((throttle_scale s <=? 0.05) = true ->
      estop_state s' = ES_IDLE /\ throttle s' = 0) /\
   ((throttle_scale s <=? 0.05) = false ->
      estop_state s' = ES_THROTTLE_NEG_TWO /\ throttle s' = t0 + 0.05)) /\
  (forall n : nat,
     (forall k, (1 <= k <= n)%nat -> (0 <=? ramp k t0) = false) ->
     (0 <=? ramp (S n) t0) = true ->
     estop_state (snd (ticks (4 + n) s)) = ES_IDLE /\
     throttle (snd (ticks (4 + n) s)) = 0 /\
     map out_angle (fst (ticks (4 + n) s)) = repeat 0 (4 + n) /\
     map out_recording (fst (ticks (4 + n) s)) = repeat false (4 + n) /\
     map out_throttle (fst (ticks (4 + n) s)) =
       [t0; 0.01; t0] ++ map (fun k => ramp k t0) (seq 1 n) ++ [0] /\
     (forall m, (m < 4 + n)%nat ->
        estop_state (snd (ticks m s)) <> ES_IDLE)) /\
  ((forall k, (1 <= k)%nat -> (0 <=? ramp k t0) = false) ->
   forall m : nat,
     estop_state (snd (ticks m s)) <> ES_IDLE /\
     map out_angle (fst (ticks m s)) = repeat 0 m /\
     map out_recording (fst (ticks m s)) = repeat false m).
Proof.
  intros E t0. subst t0. split; [| split].
  - pose proof (estop_four_ticks s E) as H. cbv zeta in H.
    rewrite first_ramp_step in H.
    destruct (ticks 4 s) as [outs s'].
    destruct H as [Ha [Hr [_ [He Ht]]]].
    split; [exact Ha | split; [exact Hr | split; [| split]]].
    + intros m Hm. apply estop_first_ticks_busy; assumption.
    + intros C; rewrite C in He, Ht; split; assumption.
    + intros C; rewrite C in He, Ht; split; assumption.
  - intros n Hneg Hend.
    pose proof (estop_reaches_idle s n E Hneg Hend) as P.
    destruct (ticks (4 + n) s) as [outs s'].
    destruct P as [P1 [P2 [P3 [P4 [P5 P6]]]]].
    cbn [fst snd]. repeat (split; [assumption |]). exact P6.
  - intros Hneg m. apply estop_never_idle; assumption.
Qed.

Lemma estop_four_ticks_scale_witness :
  let s := emergency_stop (init 0.05 1 (-1) false) in
  let h := emergency_stop (init 0.5 1 (-1) false) in
  estop_state s = ES_START /\
  (throttle_scale s <=? 0.05) = true /\
  estop_state (snd (ticks 4 s)) = ES_IDLE /\
  throttle (snd (ticks 4 s)) = 0 /\
  map out_angle (fst (ticks 4 s)) = [0; 0; 0; 0] /\
  map out_recording (fst (ticks 4 s)) = [false; false; false; false] /\
  estop_state (snd (ticks (4 + 10) h)) = ES_IDLE /\
  throttle (snd (ticks (4 + 10) h)) = 0 /\
  (forall m, (m < 4 + 10)%nat -> estop_state (snd (ticks m h)) <> ES_IDLE).
Proof.
  intros s h.
  destruct (estop_four_ticks_scale s eq_refl) as [H _]. revert H.
  destruct (ticks 4 s) as [outs s']. intros [Ha [Hr [_ [Hi _]]]].
  destruct (Hi eq_refl) as [He Ht].
  assert (Hneg : forall k, (1 <= k <= 10)%nat ->
                 (0 <=? ramp k (-1.0 * throttle_scale h)) = false).
  { intros k Hk.
    do 11 (destruct k as [| k]; [try lia; vm_compute; reflexivity |]). lia. }
  destruct (proj1 (proj2 (estop_four_ticks_scale h eq_refl)) 10%nat Hneg
              eq_refl) as [Ie [It [_ [_ [_ Ib]]]]].
  repeat (split; [assumption || reflexivity |]). exact Ib.
Defined.

(** C1 as stated fails: with [throttle_scale = 0.5] the fourth tick leaves
    the machine in [ES_THROTTLE_NEG_TWO] with throttle -0.45. *)
Lemma estop_four_ticks_half_scale :
  let s := emergency_stop (init 0.5 1 (-1) false) in
  (0 <=? throttle_scale s) = true /\ (throttle_scale s <=? 1) = true /\
  estop_state s = ES_START /\
  estop_state (snd (ticks 4 s)) = ES_THROTTLE_NEG_TWO /\
  estop_state (snd (ticks 4 s)) <> ES_IDLE /\
  throttle (snd (ticks 4 s)) = -0.5 + 0.05 /\
  (throttle (snd (ticks 4 s)) =? 0) = false.
Proof. vm_compute. repeat split; discriminate. Qed.

(** With [throttle_scale = 0.5] ten sums stay below zero (the tenth is
    -6.9e-17), so [ES_IDLE] is reached at tick 14 and not before. *)
Example estop_half_scale_ramp :
  let s := emergency_stop (init 0.5 1 (-1) false) in
  estop_state (snd (ticks 14 s)) = ES_IDLE /\
  throttle (snd (ticks 14 s)) = 0 /\
  map out_angle (fst (ticks 14 s)) = repeat 0 14 /\
  map out_recording (fst (ticks 14 s)) = repeat false 14 /\
  forall m, (m < 14)%nat -> estop_state (snd (ticks m s)) <> ES_IDLE.
Proof.
  intros s.
  assert (Hneg : forall k, (1 <= k <= 10)%nat ->
                 (0 <=? ramp k (-1.0 * throttle_scale s)) = false).
  { intros k Hk.
    do 11 (destruct k as [| k]; [try lia; vm_compute; reflexivity |]). lia. }
  assert (Hend : (0 <=? ramp 11 (-1.0 * throttle_scale s)) = true)
    by (vm_compute; reflexivity).
  pose proof (estop_reaches_idle s 10 eq_refl Hneg Hend) as H.
  change (4 + 10)%nat with 14%nat in H.
  destruct (ticks 14 s) as [outs s'].
  destruct H as [H1 [H2 [H3 [H4 [_ H6]]]]].
  repeat split; assumption.
Qed.

(** A scale that the ramp cannot bring to zero: adding 0.05 does not change
    [-1e17], and no sum with NaN is [>= 0.0]. *)
Lemma ramp_absorbed (t : float) (k : nat) : t + 0.05 = t -> ramp k t = t.
Proof.
  intros A. induction k as [| k IH]; cbn [ramp]; [reflexivity |].
  rewrite IH. exact A.
Qed.

Example estop_never_ends :
  forall m : nat,
    estop_state (snd (ticks m (emergency_stop (init 1e17 1 (-1) false))))
      <> ES_IDLE /\
    estop_state (snd (ticks m (emergency_stop (init nan 1 (-1) false))))
      <> ES_IDLE.
Proof.
  intros m. split.
  - apply estop_never_idle; [reflexivity |].
    intros k _. rewrite ramp_absorbed; vm_compute; reflexivity.
  - apply estop_never_idle; [reflexivity |].
    intros k _. rewrite ramp_absorbed; vm_compute; reflexivity.
Qed.

End Controller.

Section TickOutput.

Import JoystickController.
Local Open Scope float_scope.

(** What the tick puts out does not read the steering command, the
    override bias or the recording flag while the emergency stop runs. *)
Lemma estop_output_ignores_steering (s : t) (a : float) (c : option float)
    (r : bool) :
  estop_valid s ->
  estop_state s <> ES_IDLE ->
  fst (run_threaded
         (with_recording (with_chaos_monkey_steering (with_angle s a) c) r))
  = fst (run_threaded s).
Proof.
  intros H N.
  destruct (estop_cases s H) as [E | [E | [E | [E | E]]]];
    [contradiction | | | |].
  - rewrite (tick_start s E), tick_start by exact E. reflexivity.
  - rewrite (tick_neg_one s E), tick_neg_one by exact E. reflexivity.
  - rewrite (tick_pos_one s E), tick_pos_one by exact E. reflexivity.
  - rewrite (tick_neg_two s E), tick_neg_two by exact E.
    cbn [throttle with_recording with_chaos_monkey_steering with_angle mode].
    destruct (0 <=? throttle s + 0.05); reflexivity.
Qed.

Lemma estop_output_shape (s : t) :
  estop_valid s ->
  estop_state s <> ES_IDLE ->
  out_angle (fst (run_threaded s)) = 0 /\
  out_recording (fst (run_threaded s)) = false /\
  out_mode (fst (run_threaded s)) = mode s.
Proof.
  intros H N.
  destruct (estop_cases s H) as [E | [E | [E | [E | E]]]];
    [contradiction | | | |].
  - rewrite (tick_start s E). repeat split.
  - rewrite (tick_neg_one s E). repeat split.
  - rewrite (tick_pos_one s E). repeat split.
  - rewrite (tick_neg_two s E).
    destruct (0 <=? throttle s + 0.05); repeat split.
Qed.

(** C2: the precedence of the per-tick output.  (1) While the emergency
    stop is not idle, the tick returns the output of the state machine and
    makes its transition, whatever the steering command, the override bias
    and the recording flag are: [ES_START] puts out the throttle
    [-throttle_scale] and goes to [ES_THROTTLE_NEG_ONE]; that state puts out
    0.01 and goes to [ES_THROTTLE_POS_ONE]; that state stores and puts out
    [-throttle_scale] and goes to [ES_THROTTLE_NEG_TWO]; that state adds
    0.05 to the stored throttle and, when the sum is [>= 0.0], stores 0.0
    and goes to [ES_IDLE]; each of them with angle 0.0, the stored mode and
    recording [false].  (2) Otherwise an active override bias replaces the
    steering and forces recording [false].  (3) Otherwise the output is the
    stored angle, throttle, mode and recording flag; in (2) and (3) the
    state is left as it is. *)
Theorem run_threaded_precedence (s : t) :
  estop_valid s ->
  (estop_state s <> ES_IDLE ->
     (estop_state s = ES_START \/ estop_state s = ES_THROTTLE_NEG_ONE \/
      estop_state s = ES_THROTTLE_POS_ONE \/
      estop_state s = ES_THROTTLE_NEG_TWO) /\
     (estop_state s = ES_START ->
        run_threaded s =
          ((0, -1.0 * throttle_scale s, mode s, false),
           with_estop_state s ES_THROTTLE_NEG_ONE)) /\
     (estop_state s = ES_THROTTLE_NEG_ONE ->
        run_threaded s =
          ((0, 0.01, mode s, false),
           with_estop_state s ES_THROTTLE_POS_ONE)) /\
     (estop_state s = ES_THROTTLE_POS_ONE ->
        run_threaded s =
          ((0, -1.0 * throttle_scale s, mode s, false),
           with_throttle (with_estop_state s ES_THROTTLE_NEG_TWO)
             (-1.0 * throttle_scale s))) /\
     (estop_state s = ES_THROTTLE_NEG_TWO ->
        run_threaded s =
          if 0 <=? throttle s + 0.05
          then ((0, 0, mode s, false),
                with_estop_state (with_throttle s 0) ES_IDLE)
          else ((0, throttle s + 0.05, mode s, false),
                with_throttle s (throttle s + 0.05))) /\
     out_angle (fst (run_threaded s)) = 0 /\
     out_recording (fst (run_threaded s)) = false /\
     out_mode (fst (run_threaded s)) = mode s /\
     forall (a : float) (c : option float) (r : bool),
       fst (run_threaded
              (with_recording
                 (with_chaos_monkey_steering (with_angle s a) c) r))
       = fst (run_threaded s)) /\
  (estop_state s = ES_IDLE ->
     forall bias, chaos_monkey_steering s = Some bias ->
       run_threaded s = ((bias, throttle s, mode s, false), s)) /\
  (estop_state s = ES_IDLE ->
     chaos_monkey_steering s = None ->
     run_threaded s = ((angle s, throttle s, mode s, recording s), s)).
Proof.
  intros H. split; [| split].
  - intros N. destruct (estop_output_shape s H N) as [Ha [Hr Hm]].
    split.
    { destruct (estop_cases s H) as [E | E]; [contradiction | exact E]. }
    split; [exact (tick_start s) |].
    split; [exact (tick_neg_one s) |].
    split; [exact (tick_pos_one s) |].
    split; [exact (tick_neg_two s) |].
    split; [exact Ha |]. split; [exact Hr |]. split; [exact Hm |].
    intros a c r. apply estop_output_ignores_steering; assumption.
  - intros E bias Hc. rewrite (tick_idle s E), Hc. reflexivity.
  - intros E Hc. rewrite (tick_idle s E), Hc. reflexivity.
Qed.

Lemma run_threaded_precedence_witness :
  let s := chaos_monkey_on_left (set_steering (init 0.8 1 (-1) false) 0.75) in
  let e := emergency_stop s in
  estop_valid s /\
  run_threaded s = ((-0.2, throttle s, mode s, false), s) /\
  estop_valid e /\
  chaos_monkey_steering e = Some (-0.2) /\
  run_threaded e =
    ((0, -1.0 * throttle_scale e, mode e, false),
     with_estop_state e ES_THROTTLE_NEG_ONE).
Proof.
  intros s e.
  assert (H : estop_valid s) by (vm_compute; split; discriminate).
  assert (He : estop_valid e) by (vm_compute; split; discriminate).
  split; [exact H |].
  split;
    [exact (proj1 (proj2 (run_threaded_precedence s H))
              eq_refl (-0.2) eq_refl) |].
  split; [exact He |]. split; [reflexivity |].
  assert (N : estop_state e <> ES_IDLE) by (vm_compute; discriminate).
  exact (proj1 (proj2 (proj1 (run_threaded_precedence e He) N)) eq_refl).
Defined.

(** An axis event handled in the same tick does not reach the output while
    the override is active. *)
Lemma override_ignores_axis_input (s : t) (bias axis_val : float) :
  estop_state s = ES_IDLE ->
  chaos_monkey_steering s = Some bias ->
  fst (run_threaded (set_steering s axis_val))
  = (bias, throttle s, mode s, false).
Proof.
  intros E Hc. rewrite tick_idle by exact E.
  cbn [chaos_monkey_steering set_steering with_angle]. rewrite Hc.
  reflexivity.
Qed.

(** The whole path on the Logitech profile: the press of button A is decoded,
    dispatched to [emergency_stop], and the next tick brakes; the press of R1
    turns the override on, and the tick puts out its bias. *)
Example press_dispatch_tick :
  let dev :=
    {| Joystick.num_axes := 0%Z; Joystick.num_buttons := 2%Z;
       Joystick.axmap := []; Joystick.btnmap := [0x130; 0x137]%Z;
       Joystick.stream :=
         [Byte.x10; Byte.x27; Byte.x00; Byte.x00;
          Byte.x01; Byte.x00; Byte.x01; Byte.x00;
          Byte.x20; Byte.x27; Byte.x00; Byte.x00;
          Byte.x01; Byte.x00; Byte.x01; Byte.x01] |} in
  let js := Joystick.init Joystick.logitech dev in
  let c := set_steering (init 0.8 1 (-1) false) 0.75 in
  let '(ev1, js1) := Joystick.poll js in
  let '(ev2, _) := Joystick.poll js1 in
  ev1 = Ok (Some "A"%string, Some 1%Z, None, None) /\
  ev2 = Ok (Some "R1"%string, Some 1%Z, None, None) /\
  fst (run_threaded
         (LogitechJoystickController.dispatch c
            (Some "A"%string, Some 1%Z, None, None)))
    = (0, -1.0 * 0.8, "user"%string, false) /\
  fst (run_threaded
         (LogitechJoystickController.dispatch c
            (Some "R1"%string, Some 1%Z, None, None)))
    = (0.2, 0, "user"%string, false).
Proof. vm_compute. repeat split. Qed.

End TickOutput.

(** ** Mode and throttle scale *)

Section ModeAndScale.

Import JoystickController.
Local Open Scope float_scope.

Lemma with_mode_same (s : t) : with_mode s (mode s) = s.
Proof. destruct s; reflexivity. Qed.

(** C9: [toggle_mode] takes user to local_angle, local_angle to local and
    local to user, touching no other field, so three toggles from any of
    the three modes restore the state. *)
Theorem toggle_mode_cycle (s : t) :
  (mode s = "user"%string ->
     toggle_mode s = with_mode s "local_angle") /\
  (mode s = "local_angle"%string ->
     toggle_mode s = with_mode s "local") /\
  (mode s = "local"%string ->
     toggle_mode s = with_mode s "user") /\
  (mode s = "user"%string \/ mode s = "local_angle"%string \/
   mode s = "local"%string ->
     toggle_mode (toggle_mode (toggle_mode s)) = s).
Proof.
  repeat split.
  - intros E. unfold toggle_mode. rewrite E. reflexivity.
  - intros E. unfold toggle_mode. rewrite E. reflexivity.
  - intros E. unfold toggle_mode. rewrite E. reflexivity.
  - intros [E | [E | E]]; destruct s; cbn in E; subst; reflexivity.
Qed.

Lemma toggle_mode_cycle_witness :
  let s := init 0.8 1 (-1) false in
  mode s = "user"%string /\
  mode (toggle_mode s) = "local_angle"%string /\
  mode (toggle_mode (toggle_mode s)) = "local"%string /\
  toggle_mode (toggle_mode (toggle_mode s)) = s.
Proof.
  intros s. split; [reflexivity |].
  pose proof (toggle_mode_cycle s) as [H1 [_ [_ H3]]].
  rewrite (H3 (or_introl eq_refl)).
  repeat split.
Defined.

(** Any other mode string is sent to user. *)
Lemma toggle_mode_other (s : t) :
  mode s <> "user"%string -> mode s <> "local_angle"%string ->
  toggle_mode s = with_mode s "user".
Proof.
  intros N1 N2. unfold toggle_mode.
  destruct (String.eqb_spec (mode s) "user"); [contradiction |].
  destruct (String.eqb_spec (mode s) "local_angle"); [contradiction |].
  reflexivity.
Qed.

Lemma on_throttle_changes_recording (s : t) :
  on_throttle_changes s = with_recording s (auto_recording s).
Proof.
  unfold on_throttle_changes, auto_recording.
  destruct (auto_record_on_throttle s); [reflexivity |].
  destruct s; reflexivity.
Qed.



(** In constant-throttle mode with automatic recording, a step of the scale
    that brings the throttle above the dead zone turns recording on, and a
    step back turns it off again. *)
Example throttle_scale_step_sets_recording :
  let s := toggle_constant_throttle (init 0 1 (-1) true) in
  constant_throttle s = true /\ recording s = false /\
  throttle (increase_max_throttle s) = 0.01 /\
  recording (increase_max_throttle s) = true /\
  recording (decrease_max_throttle (increase_max_throttle s)) = false.
Proof. vm_compute. repeat split. Qed.


(** Outside constant-throttle mode the recording flag is left as it is,
    also where [on_throttle_changes] would now set it. *)
Example throttle_scale_step_keeps_recording :
  let s := set_throttle (init 0 1 (-1) true) 0.5 in
  recording s = false /\
  throttle (increase_max_throttle s) = -1 * 0.5 * 0.01 /\
  recording (increase_max_throttle s) = false /\
  recording (on_throttle_changes (increase_max_throttle s)) = true.
Proof. vm_compute. repeat split. Qed.

End ModeAndScale.

(** ** Runs of writes on the board *)

Section BoardRuns.

(** A write that fails once in a row is made good by the retry, and the
    rest of the script still has no two failures in a row. *)
Lemma set_pulse_isolated_fault (c : ArduinoFirmata.t) (pin angle : Z)
    (b : board) :
  no_double_fault (faults b) = true ->
  exists b',
    ArduinoFirmata.set_pulse c pin angle b = (Ok tt, b') /\
    written b' = (pin, angle) :: written b /\
    no_double_fault (faults b') = true.
Proof.
  unfold ArduinoFirmata.set_pulse, io_try, analog_write.
  destruct b as [fs w n]; cbn [faults written attempts].
  destruct fs as [| [|] [| [|] fs']]; cbn; intros H;
    try discriminate; eexists; repeat split; try reflexivity;
    try exact H.
Qed.

Lemma steering_update_isolated_faults (self : PWMSteering.t) (n : nat)
    (b : board) :
  PWMSteering.running self = true ->
  no_double_fault (faults b) = true ->
  exists b',
    PWMSteering.update n self b = (Ok tt, b') /\
    written b' =
      repeat (ArduinoFirmata.servo_pin (PWMSteering.controller self),
              PWMSteering.pulse self) n ++ written b /\
    no_double_fault (faults b') = true.
Proof.
  intros R. revert b. induction n as [| n IH]; intros b H.
  - exists b. split; [reflexivity | split; [reflexivity | exact H]].
  - cbn [PWMSteering.update]. rewrite R.
    unfold io_bind, ArduinoFirmata.set_servo_pulse.
    destruct (set_pulse_isolated_fault (PWMSteering.controller self)
                (ArduinoFirmata.servo_pin (PWMSteering.controller self))
                (PWMSteering.pulse self) b H) as [b1 [E1 [W1 F1]]].
    rewrite E1.
    destruct (IH b1 F1) as [b2 [E2 [W2 F2]]].
    exists b2. split; [exact E2 | split; [| exact F2]].
    rewrite W2, W1. replace (S n) with (n + 1)%nat by lia.
    rewrite repeat_app, <- app_assoc. reflexivity.
Qed.

Lemma throttle_update_isolated_faults (self : PWMThrottle.t) (n : nat)
    (b : board) :
  PWMThrottle.running self = true ->
  no_double_fault (faults b) = true ->
  exists b',
    PWMThrottle.update n self b = (Ok tt, b') /\
    written b' =
      repeat (ArduinoFirmata.esc_pin (PWMThrottle.controller self),
              PWMThrottle.pulse self) n ++ written b /\
    no_double_fault (faults b') = true.
Proof.
  intros R. revert b. induction n as [| n IH]; intros b H.
  - exists b. split; [reflexivity | split; [reflexivity | exact H]].
  - cbn [PWMThrottle.update]. rewrite R.
    unfold io_bind, ArduinoFirmata.set_esc_pulse.
    destruct (set_pulse_isolated_fault (PWMThrottle.controller self)
                (ArduinoFirmata.esc_pin (PWMThrottle.controller self))
                (PWMThrottle.pulse self) b H) as [b1 [E1 [W1 F1]]].
    rewrite E1.
    destruct (IH b1 F1) as [b2 [E2 [W2 F2]]].
    exists b2. split; [exact E2 | split; [| exact F2]].
    rewrite W2, W1. replace (S n) with (n + 1)%nat by lia.
    rewrite repeat_app, <- app_assoc. reflexivity.
Qed.

(** The two update loops keep writing the current pulse, each to its own
    pin, through any number of write failures as long as no two of them come
    in a row: [n] rounds return normally and the board has received the
    pulse [n] times. *)
Theorem update_survives_isolated_faults (steering : PWMSteering.t)
    (throttle : PWMThrottle.t) (n : nat) (b : board) :
  PWMSteering.running steering = true ->
  PWMThrottle.running throttle = true ->
  no_double_fault (faults b) = true ->
  (exists b',
     PWMSteering.update n steering b = (Ok tt, b') /\
     written b' =
       repeat (ArduinoFirmata.servo_pin (PWMSteering.controller steering),
               PWMSteering.pulse steering) n ++ written b) /\
  (exists b',
     PWMThrottle.update n throttle b = (Ok tt, b') /\
     written b' =
       repeat (ArduinoFirmata.esc_pin (PWMThrottle.controller throttle),
               PWMThrottle.pulse throttle) n ++ written b).
Proof.
  intros Rs Rt H. split.
  - destruct (steering_update_isolated_faults steering n b Rs H)
      as [b' [E [W _]]].
    exists b'. split; assumption.
  - destruct (throttle_update_isolated_faults throttle n b Rt H)
      as [b' [E [W _]]].
    exists b'. split; assumption.
Qed.

Lemma update_survives_isolated_faults_witness :
  let b := {| faults := [true; false; false; true; false];
              written := []; attempts := 0 |} in
  (exists b',
     PWMSteering.update 3 (steering_part 120 60 90) b = (Ok tt, b') /\
     written b' = [(6, 90); (6, 90); (6, 90)]) /\
  (exists b',
     PWMThrottle.update 3 (throttle_part 75 105 90) b = (Ok tt, b') /\
     written b' = [(5, 90); (5, 90); (5, 90)]).
Proof.
  intros b.
  exact (update_survives_isolated_faults
           (steering_part 120 60 90) (throttle_part 75 105 90) 3 b
           eq_refl eq_refl eq_refl).
Defined.

(** The constructor of [PWMThrottle] arms the ESC: on a board without two
    write failures in a row it returns the part with [pulse = zero_pulse],
    and the board has received [max_pulse], [min_pulse] and [zero_pulse] on
    the ESC pin, in that order and nothing else. *)
Theorem throttle_init_calibrates (c : ArduinoFirmata.t)
    (max_pulse min_pulse zero_pulse : Z) (b : board) :
  no_double_fault (faults b) = true ->
  exists b',
    PWMThrottle.init c max_pulse min_pulse zero_pulse b =
      (Ok {| PWMThrottle.controller := c;
             PWMThrottle.max_pulse := max_pulse;
             PWMThrottle.min_pulse := min_pulse;
             PWMThrottle.zero_pulse := zero_pulse;
             PWMThrottle.pulse := zero_pulse;
             PWMThrottle.running := true |}, b') /\
    written b' =
      [(ArduinoFirmata.esc_pin c, zero_pulse);
       (ArduinoFirmata.esc_pin c, min_pulse);
       (ArduinoFirmata.esc_pin c, max_pulse)] ++ written b /\
    no_double_fault (faults b') = true.
Proof.
  intros H. unfold PWMThrottle.init, io_bind, io_ret,
    ArduinoFirmata.set_esc_pulse.
  destruct (set_pulse_isolated_fault c (ArduinoFirmata.esc_pin c)
              max_pulse b H) as [b1 [E1 [W1 F1]]].
  rewrite E1.
  destruct (set_pulse_isolated_fault c (ArduinoFirmata.esc_pin c)
              min_pulse b1 F1) as [b2 [E2 [W2 F2]]].
  rewrite E2.
  destruct (set_pulse_isolated_fault c (ArduinoFirmata.esc_pin c)
              zero_pulse b2 F2) as [b3 [E3 [W3 F3]]].
  rewrite E3.
  exists b3. split; [reflexivity | split; [| exact F3]].
  rewrite W3, W2, W1. reflexivity.
Qed.

Lemma throttle_init_calibrates_witness :
  let b := {| faults := [false; true; false; true];
              written := []; attempts := 0 |} in
  exists b',
    PWMThrottle.init arduino_controller 75 105 90 b =
      (Ok (throttle_part 75 105 90), b') /\
    written b' = [(5, 90); (5, 105); (5, 75)] /\
    no_double_fault (faults b') = true.
Proof.
  intros b.
  exact (throttle_init_calibrates arduino_controller 75 105 90 b eq_refl).
Defined.

(** [PWMThrottle.shutdown] sends the pulse of the zero throttle once and
    clears [running], after which the update loop sends nothing more.  When
    the zero throttle cannot be translated the exception leaves [shutdown]
    before anything is sent, and [running] is not cleared. *)
Theorem throttle_shutdown_stops (self : PWMThrottle.t) (b : board) :
  no_double_fault (faults b) = true ->
  match PWMThrottle.run_threaded self (PyInt 0) with
  | Ok stopped =>
      exists self' b',
        PWMThrottle.shutdown self b = (Ok self', b') /\
        PWMThrottle.running self' = false /\
        PWMThrottle.pulse self' = PWMThrottle.pulse stopped /\
        written b' =
          (ArduinoFirmata.esc_pin (PWMThrottle.controller self),
           PWMThrottle.pulse stopped) :: written b /\
        forall n, PWMThrottle.update n self' b' = (Ok tt, b')
  | Raise e => PWMThrottle.shutdown self b = (Raise e, b)
  end.
Proof.
  intros H. unfold PWMThrottle.shutdown, PWMThrottle.run, io_bind, io_lift,
    io_ret.
  destruct (PWMThrottle.run_threaded self (PyInt 0)) as [stopped |] eqn:R;
    [| reflexivity].
  assert (C : PWMThrottle.controller stopped = PWMThrottle.controller self).
  { unfold PWMThrottle.run_threaded in R.
    destruct (Py.gt_zero (PyInt 0));
      destruct (map_range _ _ _ _ _) in R; try discriminate;
      injection R as <-; reflexivity. }
  unfold ArduinoFirmata.set_esc_pulse.
  destruct (set_pulse_isolated_fault (PWMThrottle.controller stopped)
              (ArduinoFirmata.esc_pin (PWMThrottle.controller stopped))
              (PWMThrottle.pulse stopped) b H) as [b1 [E1 [W1 F1]]].
  rewrite E1. eexists. exists b1.
  split; [reflexivity |].
  split; [reflexivity |].
  split; [reflexivity |].
  split; [rewrite W1, C; reflexivity |].
  intros [| n]; reflexivity.
Qed.

Lemma throttle_shutdown_stops_witness :
  let b := {| faults := [true; false]; written := []; attempts := 0 |} in
  exists self' b',
    PWMThrottle.shutdown (throttle_part 75 105 90) b = (Ok self', b') /\
    PWMThrottle.running self' = false /\
    PWMThrottle.pulse self' = 90 /\
    written b' = [(5, 90)] /\
    forall n, PWMThrottle.update n self' b' = (Ok tt, b').
Proof.
  intros b.
  exact (throttle_shutdown_stops (throttle_part 75 105 90) b eq_refl).
Defined.

(** Equal pulse ends cannot be translated: the constructor of
    [PWMSteering] raises [ZeroDivisionError], and so does every later
    translation of an angle, whatever the angle is; [run] then sends
    nothing.  The same holds for the half of the throttle range that a
    throttle falls in (from [zero_pulse] to [max_pulse] for a positive
    throttle, from [min_pulse] to [zero_pulse] for any other), and
    [PWMThrottle.shutdown] raises before it has sent anything. *)
Theorem equal_pulse_ends_raise (c : ArduinoFirmata.t) (p q : Z)
    (angle : pynum) (b : board) :
  PWMSteering.init c p p = Raise ZeroDivisionError /\
  PWMSteering.run_threaded (steering_part p p q) angle
    = Raise ZeroDivisionError /\
  PWMSteering.run (steering_part p p q) angle b
    = (Raise ZeroDivisionError, b) /\
  PWMThrottle.run_threaded
    (if Py.gt_zero angle then throttle_part p q p else throttle_part q p p)
    angle = Raise ZeroDivisionError /\
  PWMThrottle.shutdown (throttle_part q p p) b
    = (Raise ZeroDivisionError, b).
Proof.
  unfold PWMSteering.init, PWMSteering.run, PWMSteering.run_threaded,
    PWMThrottle.shutdown, PWMThrottle.run, PWMThrottle.run_threaded,
    io_bind, io_lift.
  cbn [PWMSteering.left_pulse PWMSteering.right_pulse steering_part].
  change (Py.gt_zero (PyInt 0)) with false. cbv iota.
  destruct (Py.gt_zero angle);
    cbn [PWMThrottle.min_pulse PWMThrottle.zero_pulse PWMThrottle.max_pulse
         throttle_part];
    rewrite !map_range_empty_target; repeat split.
Qed.

End BoardRuns.

(** ** More of the decoder: what [poll] refuses, touches and stores *)

Section DecoderStates.

Import Joystick.

Lemma u8_bounds (b : Byte.byte) : 0 <= u8 b < 256.
Proof.
  unfold u8. pose proof (Byte.to_N_bounded b) as H. lia.
Qed.

Lemma In_zrange (n : nat) (z v : Z) :
  z <= v < z + Z.of_nat n -> In v (zrange n z).
Proof.
  revert z. induction n as [| n IH]; intros z H; [lia |].
  cbn [zrange]. destruct (Z.eq_dec z v) as [-> | N]; [left; reflexivity |].
  right. apply IH. lia.
Qed.

Lemma axis_values_checked : forallb axis_value_ok i16_values = true.
Proof. vm_compute. reflexivity. Qed.

(** The axis value of every raw 16-bit value: the division never raises,
    the quotient is at most 1.0 and below -1.0 only for -32768, and it is
    -1.0, 0.0 or 1.0 for the raw values -32767, 0 and 32767 only. *)
Lemma axis_value_facts (v : Z) :
  -32768 <= v <= 32767 ->
  exists f,
    Py.truediv_float (PyInt v) 32767 = Ok f /\
    (-1.0001 <=? f)%float = true /\ (f <=? 1)%float = true /\
    (f <? -1)%float = (v =? -32768) /\
    (f =? -1)%float = (v =? -32767) /\
    (f =? 1)%float = (v =? 32767) /\
    (f =? 0)%float = (v =? 0).
Proof.
  intros H.
  pose proof (proj1 (forallb_forall axis_value_ok i16_values)
                axis_values_checked v) as C.
  assert (I : In v i16_values).
  { apply In_zrange. change (Z.of_nat (Z.to_nat 65536)) with 65536. lia. }
  specialize (C I). unfold axis_value_ok in C.
  destruct (Py.truediv_float (PyInt v) 32767) as [f |]; [| discriminate].
  exists f.
  repeat (apply andb_prop in C as [C ?]).
  repeat match goal with
         | E : Bool.eqb _ _ = true |- _ => apply Bool.eqb_prop in E
         end.
  repeat split; assumption.
Qed.

(** The 16-bit value of a record is in the range of a signed short. *)
Lemma short_range (lo hi : Byte.byte) :
  let raw := u8 lo + 2 ^ 8 * u8 hi in
  -32768 <= (if raw <? 2 ^ 15 then raw else raw - 2 ^ 16) <= 32767.
Proof.
  intros raw. pose proof (u8_bounds lo). pose proof (u8_bounds hi).
  change (2 ^ 8) with 256 in *. change (2 ^ 15) with 32768.
  change (2 ^ 16) with 65536.
  destruct (Z.ltb_spec raw 32768); unfold raw in *; lia.
Qed.

(** A read that ends inside a record: [struct.unpack] refuses the short
    buffer, the exception leaves [poll], and the device has nothing left. *)
Theorem poll_short_read_raises (self : t) (dev : list Byte.byte) :
  jsdev self = Some dev ->
  (0 < length dev < 8)%nat ->
  poll self = (Raise StructError, with_jsdev self (Some [])).
Proof.
  intros O L. unfold poll. rewrite O.
  do 8 (destruct dev as [| ? dev]; [cbn in L; try lia; reflexivity |]).
  cbn in L. lia.
Qed.

Lemma poll_short_read_raises_witness :
  poll (sample_joystick [Byte.x10; Byte.x27; Byte.x00])
  = (Raise StructError,
     with_jsdev (sample_joystick [Byte.x10; Byte.x27; Byte.x00]) (Some [])).
Proof.
  apply (poll_short_read_raises
           (sample_joystick [Byte.x10; Byte.x27; Byte.x00])
           [Byte.x10; Byte.x27; Byte.x00]);
    [reflexivity | cbn; lia].
Defined.

Lemma keeps_tables_refl (j : t) : keeps_tables j j.
Proof. unfold keeps_tables. repeat split; auto. Qed.

Lemma keeps_tables_trans (j1 j2 j3 : t) :
  keeps_tables j1 j2 -> keeps_tables j2 j3 -> keeps_tables j1 j3.
Proof.
  unfold keeps_tables.
  intros [A1 [B1 [C1 [D1 [E1 F1]]]]] [A2 [B2 [C2 [D2 [E2 F2]]]]].
  split; [congruence |]. split; [congruence |]. split; [congruence |].
  split; [congruence |]. repeat split; intros name N.
  - rewrite E2 by (rewrite A1; exact N). apply E1. exact N.
  - rewrite (proj1 F2) by (rewrite B1; exact N). apply (proj1 F1). exact N.
  - apply (proj1 (proj2 F2)), (proj1 (proj2 F1)). exact N.
  - apply (proj2 (proj2 F2)), (proj2 (proj2 F1)). exact N.
Qed.

Lemma with_jsdev_keeps_tables (j : t) (d : option (list Byte.byte)) :
  keeps_tables j (with_jsdev j d).
Proof. unfold keeps_tables. repeat split; auto. Qed.

Lemma poll_button_keeps_tables (j : t) (value typev number : Z) :
  keeps_tables j (snd (poll_button j value typev number)) /\
  jsdev (snd (poll_button j value typev number)) = jsdev j.
Proof.
  unfold poll_button.
  destruct (Z.land typev 1 =? 0); [split; [apply keeps_tables_refl | reflexivity] |].
  destruct (button_map j !! Z.to_nat number) as [button |] eqn:L;
    [| split; [apply keeps_tables_refl | reflexivity]].
  destruct (truthy button);
    [| split; [apply keeps_tables_refl | reflexivity]].
  split; [| reflexivity].
  unfold keeps_tables; cbn. repeat split; try (intros name N; exact N).
  - intros name N. apply lookup_insert_ne. intros ->. apply N.
    apply list_elem_of_In. eapply list_elem_of_lookup_2. exact L.
  - intros name N. apply lookup_insert_is_Some'. right. exact N.
Qed.

Lemma poll_axis_keeps_tables (j : t) (value typev number : Z) :
  keeps_tables j (snd (poll_axis j value typev number)) /\
  jsdev (snd (poll_axis j value typev number)) = jsdev j.
Proof.
  unfold poll_axis.
  destruct (Z.land typev 2 =? 0); [split; [apply keeps_tables_refl | reflexivity] |].
  destruct (axis_map j !! Z.to_nat number) as [axis |] eqn:L;
    [| split; [apply keeps_tables_refl | reflexivity]].
  destruct (truthy axis);
    [| split; [apply keeps_tables_refl | reflexivity]].
  destruct (Py.truediv_float (PyInt value) 32767) as [f |];
    [| split; [apply keeps_tables_refl | reflexivity]].
  split; [| reflexivity].
  unfold keeps_tables; cbn. repeat split; try (intros name N; exact N).
  - intros name N. apply lookup_insert_ne. intros ->. apply N.
    apply list_elem_of_In. eapply list_elem_of_lookup_2. exact L.
  - intros name N. apply lookup_insert_is_Some'. right. exact N.
Qed.

(** Whatever the device delivers and however [poll] ends, it takes at most
    one record of eight bytes from the device, it does not touch the two
    maps and the two name tables, the only states it can change are those
    of names that are in the maps, and it removes no state. *)
Theorem poll_keeps_tables (self : t) :
  keeps_tables self (snd (poll self)) /\
  jsdev (snd (poll self)) = option_map (skipn 8) (jsdev self).
Proof.
  unfold poll. destruct (jsdev self) as [dev |] eqn:O;
    [| split; [apply keeps_tables_refl | cbn; exact O]].
  set (j0 := with_jsdev self (Some (skipn 8 dev))).
  assert (K0 : keeps_tables self j0) by apply with_jsdev_keeps_tables.
  assert (J0 : jsdev j0 = Some (skipn 8 dev)) by reflexivity.
  cbn [option_map].
  destruct (firstn 8 dev) as [| b bs]; [split; assumption |].
  destruct (unpack_IhBB (b :: bs)) as [[[[tval value] typev] number] | e];
    [| split; assumption].
  destruct (negb (Z.land typev 128 =? 0)); [split; assumption |].
  destruct (poll_button_keeps_tables j0 value typev number) as [K1 J1].
  destruct (poll_button j0 value typev number) as [[[button bs'] | e] j1];
    cbn [snd] in K1, J1 |- *;
    [| split; [exact (keeps_tables_trans _ _ _ K0 K1) | congruence]].
  destruct (poll_axis_keeps_tables j1 value typev number) as [K2 J2].
  destruct (poll_axis j1 value typev number) as [[[axis av] | e] j2];
    cbn [snd] in K2, J2 |- *.
  - split; [| congruence].
    exact (keeps_tables_trans _ _ _ K0 (keeps_tables_trans _ _ _ K1 K2)).
  - split; [| congruence].
    exact (keeps_tables_trans _ _ _ K0 (keeps_tables_trans _ _ _ K1 K2)).
Qed.

End DecoderStates.

Section DecoderInitStates.

Import Joystick.

Lemma fold_insert_other {V : Type} (v : V) (names : list string)
    (m : gmap string V) (name : string) :
  ~ In name names ->
  fold_left (fun m n => <[n := v]> m) names m !! name = m !! name.
Proof.
  revert m. induction names as [| n names IH]; intros m N; [reflexivity |].
  cbn [fold_left]. rewrite IH by (intros I; apply N; right; exact I).
  apply lookup_insert_ne. intros ->. apply N. left. reflexivity.
Qed.

Lemma fold_insert_in {V : Type} (v : V) (names : list string)
    (m : gmap string V) (name : string) :
  In name names ->
  fold_left (fun m n => <[n := v]> m) names m !! name = Some v.
Proof.
  revert m. induction names as [| n names IH]; intros m I; [destruct I |].
  cbn [fold_left].
  destruct (in_dec string_dec name names) as [I' | N].
  - apply IH. exact I'.
  - rewrite fold_insert_other by exact N.
    destruct I as [-> | I]; [apply lookup_insert_eq | contradiction].
Qed.

(** [init] on a joystick as the constructor leaves it (both maps empty):
    the maps get one name for each of the first [num_axes] and
    [num_buttons] codes that the device reports, in the order of the report,
    every name of the maps has the state zero, whatever the state tables
    held, and the device is open on its stream. *)
Theorem init_zeroes_states (self : t) (dev : device) :
  axis_map self = [] ->
  button_map self = [] ->
  axis_map (init self dev) =
    map (axis_name_of self) (firstn (Z.to_nat (num_axes dev)) (axmap dev)) /\
  button_map (init self dev) =
    map (button_name_of self)
      (firstn (Z.to_nat (num_buttons dev)) (btnmap dev)) /\
  (forall name, In name (axis_map (init self dev)) ->
     axis_states (init self dev) !! name = Some 0%float) /\
  (forall name, In name (button_map (init self dev)) ->
     button_states (init self dev) !! name = Some 0) /\
  jsdev (init self dev) = Some (stream dev).
Proof.
  intros A B. unfold init; cbn [axis_map button_map axis_states
                                 button_states jsdev].
  rewrite A, B. cbn [app].
  repeat split; intros name I; apply fold_insert_in; exact I.
Qed.

Lemma init_zeroes_states_witness :
  let dev := {| num_axes := 2; num_buttons := 2;
                axmap := [0x01; 0x07; 0]; btnmap := [0x130; 0x2c0; 0];
                stream := [] |} in
  axis_map (init logitech dev) = ["left_stick_vert"; "unknown(0x07)"]%string /\
  button_map (init logitech dev) = ["A"; "unknown(0x2c0)"]%string /\
  (forall name, In name (axis_map (init logitech dev)) ->
     axis_states (init logitech dev) !! name = Some 0%float) /\
  (forall name, In name (button_map (init logitech dev)) ->
     button_states (init logitech dev) !! name = Some 0) /\
  jsdev (init logitech dev) = Some [].
Proof.
  intros dev.
  exact (init_zeroes_states logitech dev eq_refl eq_refl).
Defined.

End DecoderInitStates.

Section DecoderEvents.

Import Joystick.

Variable self : t.

(** The eight bytes of one input record and what follows them. *)
Variables b0 b1 b2 b3 b4 b5 b6 b7 : Byte.byte.
Variable rest : list Byte.byte.

Let record : list Byte.byte := [b0; b1; b2; b3; b4; b5; b6; b7].
Let value : Z :=
  let raw := u8 b4 + 2 ^ 8 * u8 b5 in
  if raw <? 2 ^ 15 then raw else raw - 2 ^ 16.
Let typev : Z := u8 b6.
Let number : Z := u8 b7.

Variable name : string.

Hypothesis opened : jsdev self = Some (record ++ rest).
Hypothesis not_init : Z.land typev 128 = 0.
Hypothesis is_named : named name.

Lemma poll_named_button :
  Z.land typev 1 <> 0 ->
  Z.land typev 2 = 0 ->
  button_map self !! Z.to_nat number = Some name ->
  poll self = (Ok (Some name, Some value, None, None),
               set_button_state (with_jsdev self (Some rest)) name value).
Proof.
  intros H1 H2 L.
  rewrite (poll_reads_record self b0 b1 b2 b3 b4 b5 b6 b7 rest opened).
  fold value typev number. rewrite not_init.
  cbn [Z.eqb negb]. cbv iota zeta.
  unfold poll_button, poll_axis. cbn [button_map axis_map with_jsdev].
  destruct (Z.eqb_spec (Z.land typev 1) 0) as [E | _]; [contradiction |].
  rewrite L, is_named, H2. reflexivity.
Qed.

(** A button record whose index has a name in the button map: [poll]
    reports the name with the record's value, a signed 16-bit number, stores
    the value as the state of that name and of no other, and leaves the axis
    states alone. *)
Theorem poll_button_event :
  Z.land typev 1 <> 0 ->
  Z.land typev 2 = 0 ->
  button_map self !! Z.to_nat number = Some name ->
  poll self = (Ok (Some name, Some value, None, None),
               set_button_state (with_jsdev self (Some rest)) name value) /\
  -32768 <= value <= 32767 /\
  button_states (snd (poll self)) !! name = Some value /\
  (forall other, other <> name ->
     button_states (snd (poll self)) !! other = button_states self !! other) /\
  axis_states (snd (poll self)) = axis_states self.
Proof.
  intros H1 H2 L.
  pose proof (poll_named_button H1 H2 L) as P.
  rewrite P. cbn [snd set_button_state button_states axis_states with_jsdev].
  split; [reflexivity |]. split; [apply short_range |].
  split; [apply lookup_insert_eq |].
  split; [| reflexivity].
  intros other N. apply lookup_insert_ne. congruence.
Qed.

(** An axis record whose index has a name in the axis map: [poll] reports
    the name with the record's value divided by 32767.0 and stores that
    quotient as the state of the name.  The quotient is at most 1.0; it is
    below -1.0 for the raw value -32768 and for no other, and it is exactly
    -1.0, 0.0 or 1.0 for the raw values -32767, 0 and 32767 only. *)
Theorem poll_axis_event :
  Z.land typev 1 = 0 ->
  Z.land typev 2 <> 0 ->
  axis_map self !! Z.to_nat number = Some name ->
  exists f,
    poll self = (Ok (None, None, Some name, Some f),
                 set_axis_state (with_jsdev self (Some rest)) name f) /\
    Py.truediv_float (PyInt value) 32767 = Ok f /\
    (-1.0001 <=? f)%float = true /\ (f <=? 1)%float = true /\
    (f <? -1)%float = (value =? -32768) /\
    (f =? -1)%float = (value =? -32767) /\
    (f =? 1)%float = (value =? 32767) /\
    (f =? 0)%float = (value =? 0) /\
    axis_states (snd (poll self)) !! name = Some f /\
    button_states (snd (poll self)) = button_states self.
Proof.
  intros H1 H2 L.
  destruct (axis_value_facts value (short_range b4 b5))
    as [f [D [F1 [F2 [F3 [F4 [F5 F6]]]]]]].
  exists f.
  assert (P : poll self =
              (Ok (None, None, Some name, Some f),
               set_axis_state (with_jsdev self (Some rest)) name f)).
  { rewrite (poll_reads_record self b0 b1 b2 b3 b4 b5 b6 b7 rest opened).
    fold value typev number. rewrite not_init.
    cbn [Z.eqb negb]. cbv iota zeta.
    unfold poll_button, poll_axis. cbn [button_map axis_map with_jsdev].
    rewrite H1. cbn [Z.eqb]. cbv iota.
    destruct (Z.eqb_spec (Z.land typev 2) 0) as [E | _]; [contradiction |].
    change (axis_map (with_jsdev self (Some rest))) with (axis_map self).
    rewrite L, is_named, D. reflexivity. }
  rewrite P. cbn [snd set_axis_state button_states axis_states with_jsdev].
  repeat (split; [assumption || reflexivity |]).
  split; [apply lookup_insert_eq | reflexivity].
Qed.

End DecoderEvents.

Section DecoderEventFacts.

Import Joystick.

Lemma poll_button_event_witness :
  let s := sample_joystick
             [Byte.x10; Byte.x27; Byte.x00; Byte.x00;
              Byte.x01; Byte.x00; Byte.x01; Byte.x00] in
  poll s = (Ok (Some "A"%string, Some 1, None, None),
            set_button_state (with_jsdev s (Some [])) "A" 1) /\
  -32768 <= 1 <= 32767 /\
  button_states (snd (poll s)) !! "A"%string = Some 1 /\
  (forall other, other <> "A"%string ->
     button_states (snd (poll s)) !! other = button_states s !! other) /\
  axis_states (snd (poll s)) = axis_states s.
Proof.
  intros s.
  apply (poll_button_event s
           Byte.x10 Byte.x27 Byte.x00 Byte.x00
           Byte.x01 Byte.x00 Byte.x01 Byte.x00 [] "A"%string);
    [reflexivity | reflexivity | reflexivity | vm_compute; discriminate
    | reflexivity | reflexivity].
Defined.

Lemma poll_axis_event_witness :
  let s := sample_joystick
             [Byte.x10; Byte.x27; Byte.x00; Byte.x00;
              Byte.x00; Byte.x80; Byte.x02; Byte.x00] in
  exists f,
    poll s = (Ok (None, None, Some "left_stick_vert"%string, Some f),
              set_axis_state (with_jsdev s (Some [])) "left_stick_vert" f) /\
    Py.truediv_float (PyInt (-32768)) 32767 = Ok f /\
    (-1.0001 <=? f)%float = true /\ (f <=? 1)%float = true /\
    (f <? -1)%float = true /\
    (f =? -1)%float = false /\
    (f =? 1)%float = false /\
    (f =? 0)%float = false /\
    axis_states (snd (poll s)) !! "left_stick_vert"%string = Some f /\
    button_states (snd (poll s)) = button_states s.
Proof.
  intros s.
  apply (poll_axis_event s
           Byte.x10 Byte.x27 Byte.x00 Byte.x00
           Byte.x00 Byte.x80 Byte.x02 Byte.x00 [] "left_stick_vert"%string);
    [reflexivity | reflexivity | reflexivity | reflexivity
    | vm_compute; discriminate | reflexivity].
Defined.

End DecoderEventFacts.

(** ** Indices without an entry and codes without a name *)

Section DecoderUnmapped.

Import Joystick.

Lemma lookup_map {A B : Type} (f : A -> B) (l : list A) (n : nat) :
  map f l !! n = option_map f (l !! n).
Proof.
  revert n. induction l as [| a l IH]; intros [| n]; try reflexivity.
  apply IH.
Qed.

(** Both classes of the source, the base class and the Logitech profile,
    give every code a non-empty name. *)
Lemma profile_names_named (p : t) :
  p = new \/ p = logitech ->
  (forall code, named (axis_name_of p code)) /\
  (forall code, named (button_name_of p code)).
Proof.
  intros [-> | ->]; split; intros code.
  - unfold axis_name_of; cbn [axis_names new]. rewrite lookup_empty.
    apply unknown_name_named.
  - unfold button_name_of; cbn [button_names new]. rewrite lookup_empty.
    apply unknown_name_named.
  - unfold axis_name_of; cbn [axis_names logitech].
    destruct (logitech_axis_names !! code) as [v |] eqn:E; cbn.
    + exact (logitech_axis_names_named code v E).
    + apply unknown_name_named.
  - unfold button_name_of; cbn [button_names logitech].
    destruct (logitech_button_names !! code) as [v |] eqn:E; cbn.
    + exact (logitech_button_names_named code v E).
    + apply unknown_name_named.
Qed.

(** The joystick class and what [init] found on the device. *)
Variable p : t.
Variable dev : device.

(** The eight bytes of one input record and what follows them. *)
Variables b0 b1 b2 b3 b4 b5 b6 b7 : Byte.byte.
Variable rest : list Byte.byte.

Let record : list Byte.byte := [b0; b1; b2; b3; b4; b5; b6; b7].
Let value : Z :=
  let raw := u8 b4 + 2 ^ 8 * u8 b5 in
  if raw <? 2 ^ 15 then raw else raw - 2 ^ 16.
Let typev : Z := u8 b6.
Let number : Z := u8 b7.

(** The joystick as [init] leaves it, and the raw codes that the device
    reports for its axes and buttons. *)
Let js : t := init p dev.
Let axis_codes : list Z := firstn (Z.to_nat (num_axes dev)) (axmap dev).
Let button_codes : list Z :=
  firstn (Z.to_nat (num_buttons dev)) (btnmap dev).

Hypothesis profile : p = new \/ p = logitech.
Hypothesis delivered : stream dev = record ++ rest.
Hypothesis not_init : Z.land typev 128 = 0.

Lemma poll_after_init :
  poll js =
    let js' := with_jsdev js (Some rest) in
    match
      (if Z.land typev 1 =? 0 then (Ok (None, None), js')
       else
         match button_codes !! Z.to_nat number with
         | None => (Raise IndexError, js')
         | Some code =>
             (Ok (Some (button_name_of p code), Some value),
              set_button_state js' (button_name_of p code) value)
         end)
    with
    | (Raise e, s1) => (Raise e, s1)
    | (Ok (button, button_state), s1) =>
        if Z.land typev 2 =? 0
        then (Ok (button, button_state, None, None), s1)
        else
          match axis_codes !! Z.to_nat number with
          | None => (Raise IndexError, s1)
          | Some code =>
              match Py.truediv_float (PyInt value) 32767 with
              | Ok f =>
                  (Ok (button, button_state,
                       Some (axis_name_of p code), Some f),
                   set_axis_state s1 (axis_name_of p code) f)
              | Raise e => (Raise e, s1)
              end
          end
    end.
Proof.
  destruct (profile_names_named p profile) as [Na Nb].
  assert (O : jsdev js = Some (record ++ rest))
    by (unfold js, init; cbn [jsdev]; rewrite delivered; reflexivity).
  assert (BM : button_map js = map (button_name_of p) button_codes)
    by (destruct profile; subst p; reflexivity).
  assert (AM : axis_map js = map (axis_name_of p) axis_codes)
    by (destruct profile; subst p; reflexivity).
  rewrite (poll_reads_record js b0 b1 b2 b3 b4 b5 b6 b7 rest O).
  fold value typev number. rewrite not_init.
  cbn [Z.eqb negb]. cbv iota zeta.
  unfold poll_button, poll_axis.
  change (button_map (with_jsdev js (Some rest))) with (button_map js).
  rewrite BM, lookup_map.
  destruct (Z.land typev 1 =? 0).
  - change (axis_map (with_jsdev js (Some rest))) with (axis_map js).
    rewrite AM, lookup_map.
    destruct (Z.land typev 2 =? 0); [reflexivity |].
    destruct (axis_codes !! Z.to_nat number) as [code |]; cbn [option_map];
      [| reflexivity].
    rewrite (Na code).
    destruct (Py.truediv_float (PyInt value) 32767); reflexivity.
  - destruct (button_codes !! Z.to_nat number) as [bcode |];
      cbn [option_map]; [| reflexivity].
    rewrite (Nb bcode).
    change (axis_map (set_button_state (with_jsdev js (Some rest))
                        (button_name_of p bcode) value))
      with (axis_map js).
    rewrite AM, lookup_map.
    destruct (Z.land typev 2 =? 0); [reflexivity |].
    destruct (axis_codes !! Z.to_nat number) as [code |]; cbn [option_map];
      [| reflexivity].
    rewrite (Na code).
    destruct (Py.truediv_float (PyInt value) 32767); reflexivity.
Qed.


End DecoderUnmapped.

Section DecoderUnmappedFacts.

Import Joystick.


End DecoderUnmappedFacts.

(** ** The controller under any sequence of events and ticks *)

Section ControllerReach.

Import JoystickController LogitechJoystickController.
Local Open Scope float_scope.

Variables ss td : float.
Variable auto : bool.

Ltac inv_fields :=
  unfold controller_inv, estop_valid, mode_valid, override_valid,
    ES_IDLE, ES_START, ES_THROTTLE_NEG_TWO in *;
  cbn [estop_state mode chaos_monkey_steering steering_scale throttle_dir
       auto_record_on_throttle dead_zone
       with_angle with_throttle with_mode with_last_throttle_axis_val
       with_throttle_scale with_recording with_constant_throttle
       with_estop_state with_chaos_monkey_steering In] in *.

Lemma on_throttle_changes_inv (s : t) :
  controller_inv ss td auto s -> controller_inv ss td auto (on_throttle_changes s).
Proof.
  unfold on_throttle_changes.
  destruct (auto_record_on_throttle s) eqn:A; [| trivial].
  intros H. inv_fields. exact H.
Qed.

Lemma call_button_inv (op : button_op) (s : t) :
  controller_inv ss td auto s -> controller_inv ss td auto (call_button op s).
Proof.
  intros H. destruct op; cbn [call_button].
  - unfold toggle_mode.
    destruct (String.eqb (mode s) "user");
      [| destruct (String.eqb (mode s) "local_angle")];
      inv_fields; intuition.
  - unfold toggle_manual_recording.
    destruct (auto_record_on_throttle s) eqn:A; [exact H |].
    destruct (recording s); inv_fields; exact H.
  - exact H.
  - unfold emergency_stop. inv_fields. intuition lia.
  - unfold toggle_constant_throttle.
    destruct (constant_throttle s); apply on_throttle_changes_inv;
      inv_fields; exact H.
  - unfold chaos_monkey_on_right. inv_fields. intuition.
  - unfold chaos_monkey_on_left. inv_fields. intuition.
  - unfold chaos_monkey_off. inv_fields. intuition.
Qed.

Lemma scale_step_inv (s : t) (v : float) :
  controller_inv ss td auto s ->
  controller_inv ss td auto
    (let self := with_throttle_scale s v in
     if constant_throttle self then
       on_throttle_changes (with_throttle self (throttle_scale self))
     else
       with_throttle self
         (throttle_dir self * last_throttle_axis_val self
          * throttle_scale self)).
Proof.
  intros H. cbv zeta.
  change (constant_throttle (with_throttle_scale s v))
    with (constant_throttle s).
  destruct (constant_throttle s);
    [apply on_throttle_changes_inv |]; inv_fields; exact H.
Qed.

Lemma call_axis_inv (op : axis_op) (s : t) (v : float) :
  controller_inv ss td auto s -> controller_inv ss td auto (call_axis op s v).
Proof.
  intros H. destruct op; cbn [call_axis].
  - unfold set_steering. inv_fields. exact H.
  - unfold set_throttle. apply on_throttle_changes_inv. inv_fields. exact H.
  - exact H.
  - unfold on_axis_dpad_UD.
    destruct (v =? -1.0); [| destruct (v =? 1.0); [| exact H]].
    + apply (scale_step_inv s _ H).
    + apply (scale_step_inv s _ H).
Qed.

Lemma dispatch_inv (s : t) (ev : Joystick.event) :
  controller_inv ss td auto s -> controller_inv ss td auto (dispatch s ev).
Proof.
  intros H. destruct ev as [[[button st] axis] av]. unfold dispatch.
  set (s1 := match axis, av with
             | Some a, Some v =>
                 match axis_trigger_map !! a with
                 | Some op => call_axis op s v
                 | None => s
                 end
             | _, _ => s
             end).
  assert (H1 : controller_inv ss td auto s1).
  { unfold s1. destruct axis as [a |], av as [v |]; try exact H.
    destruct (axis_trigger_map !! a); [apply call_axis_inv |]; exact H. }
  clearbody s1.
  set (s2 := match button, st with
             | Some b, Some st' =>
                 if Joystick.truthy b && (1 <=? st')%Z then
                   match button_down_trigger_map !! b with
                   | Some op => call_button op s1
                   | None => s1
                   end
                 else s1
             | _, _ => s1
             end).
  assert (H2 : controller_inv ss td auto s2).
  { unfold s2. destruct button as [b |], st as [st' |]; try exact H1.
    destruct (Joystick.truthy b && (1 <=? st')%Z); [| exact H1].
    destruct (button_down_trigger_map !! b); [apply call_button_inv |];
      exact H1. }
  clearbody s2.
  destruct button as [b |], st as [st' |]; try exact H2.
  destruct (Joystick.truthy b && (st' =? 0)%Z); [| exact H2].
  destruct (button_up_trigger_map !! b); [apply call_button_inv |]; exact H2.
Qed.

Lemma run_threaded_inv (s : t) :
  controller_inv ss td auto s ->
  controller_inv ss td auto (snd (run_threaded s)).
Proof.
  intros H.
  assert (V : estop_valid (snd (run_threaded s)))
    by (apply run_threaded_estop_valid; apply H).
  destruct H as [E H].
  split; [exact V |]. clear V.
  destruct (estop_cases s E) as [C | [C | [C | [C | C]]]].
  - rewrite (tick_idle s C). exact H.
  - rewrite (tick_start s C). exact H.
  - rewrite (tick_neg_one s C). exact H.
  - rewrite (tick_pos_one s C). exact H.
  - rewrite (tick_neg_two s C).
    destruct (0 <=? throttle s + 0.05); exact H.
Qed.

Lemma act_inv (s : t) (a : action) :
  controller_inv ss td auto s -> controller_inv ss td auto (act s a).
Proof.
  destruct a as [ev |]; [apply dispatch_inv | apply run_threaded_inv].
Qed.

Lemma acts_inv (actions : list action) (s : t) :
  controller_inv ss td auto s ->
  controller_inv ss td auto (fold_left act actions s).
Proof.
  revert s. induction actions as [| a actions IH]; intros s H; [exact H |].
  cbn [fold_left]. apply IH, act_inv, H.
Qed.

End ControllerReach.

Section ControllerReachable.

Import JoystickController LogitechJoystickController.
Local Open Scope float_scope.

(** Whatever events the joystick thread dispatches and however the ticks of
    the vehicle loop fall between them, a controller that started from its
    constructor has an emergency-stop state among the five constants, a
    mode among the three modes and a steering override that is absent, -0.2
    or 0.2; its steering scale, throttle direction, recording policy and
    dead zone are still those of the constructor. *)
Theorem controller_stays_valid (actions : list action)
    (throttle_scale steering_scale throttle_dir : float)
    (auto_record_on_throttle : bool) :
  let s := fold_left act actions
             (init throttle_scale steering_scale throttle_dir
                auto_record_on_throttle) in
  (ES_IDLE <= estop_state s <= ES_THROTTLE_NEG_TWO)%Z /\
  In (mode s) ["user"; "local_angle"; "local"]%string /\
  In (chaos_monkey_steering s) [None; Some (-0.2); Some 0.2] /\
  JoystickController.steering_scale s = steering_scale /\
  JoystickController.throttle_dir s = throttle_dir /\
  JoystickController.auto_record_on_throttle s = auto_record_on_throttle /\
  dead_zone s = 0.
Proof.
  intros s.
  apply (acts_inv steering_scale throttle_dir auto_record_on_throttle).
  unfold controller_inv, estop_valid, mode_valid, override_valid, init,
    ES_IDLE, ES_THROTTLE_NEG_TWO; cbn.
  repeat split; try lia; auto.
Qed.

End ControllerReachable.

(** ** The throttle scale in hundredths *)

Section ScaleGrid.

Import JoystickController LogitechJoystickController.
Local Open Scope float_scope.

(** One step up and one step down from each of the 101 hundredths. *)
Lemma hundredth_steps (n : nat) :
  (n <= 100)%nat ->
  Py.round2 (Py.min 1 (hundredth (Z.of_nat n) + 0.01))
    = hundredth (Z.min 100 (Z.of_nat n + 1)) /\
  Py.round2 (Py.max 0 (hundredth (Z.of_nat n) - 0.01))
    = hundredth (Z.max 0 (Z.of_nat n - 1)).
Proof.
  intros H.
  do 101 (destruct n as [| n]; [vm_compute; split; reflexivity |]).
  lia.
Qed.

Lemma hundredth_step (k : Z) :
  (0 <= k <= 100)%Z ->
  Py.round2 (Py.min 1 (hundredth k + 0.01)) = hundredth (Z.min 100 (k + 1)) /\
  Py.round2 (Py.max 0 (hundredth k - 0.01)) = hundredth (Z.max 0 (k - 1)).
Proof.
  intros H. rewrite <- (Z2Nat.id k) by lia. apply hundredth_steps. lia.
Qed.

Lemma scale_after_step (s : t) :
  throttle_scale (increase_max_throttle s)
    = Py.round2 (Py.min 1 (throttle_scale s + 0.01)) /\
  throttle_scale (decrease_max_throttle s)
    = Py.round2 (Py.max 0 (throttle_scale s - 0.01)).
Proof.
  unfold increase_max_throttle, decrease_max_throttle, on_throttle_changes.
  cbn [constant_throttle with_throttle_scale with_throttle
       auto_record_on_throttle throttle_scale].
  destruct (constant_throttle s), (auto_record_on_throttle s);
    split; reflexivity.
Qed.

(** A throttle scale that is a hundredth between 0.00 and 1.00, as Python
    writes it, stays one: [n] steps up from [k/100] give
    [min(k + n, 100)/100] and [n] steps down [max(k - n, 0)/100], the very
    floats of these quotients, so that the steps neither drift nor leave
    the range. *)
Theorem throttle_scale_stays_on_grid (s : t) (k : Z) (n : nat) :
  (0 <= k <= 100)%Z ->
  throttle_scale s = hundredth k ->
  throttle_scale (Nat.iter n increase_max_throttle s)
    = hundredth (Z.min 100 (k + Z.of_nat n)) /\
  throttle_scale (Nat.iter n decrease_max_throttle s)
    = hundredth (Z.max 0 (k - Z.of_nat n)).
Proof.
  intros K H. induction n as [| n [IHu IHd]].
  - change (Nat.iter 0 increase_max_throttle s) with s.
    change (Nat.iter 0 decrease_max_throttle s) with s.
    rewrite H. split; f_equal; lia.
  - rewrite !Nat.iter_succ. split.
    + rewrite (proj1 (scale_after_step _)), IHu.
      rewrite (proj1 (hundredth_step (Z.min 100 (k + Z.of_nat n))
                        ltac:(lia))).
      f_equal. lia.
    + rewrite (proj2 (scale_after_step _)), IHd.
      rewrite (proj2 (hundredth_step (Z.max 0 (k - Z.of_nat n))
                        ltac:(lia))).
      f_equal. lia.
Qed.

Lemma throttle_scale_stays_on_grid_witness :
  let s := init 0.8 1 (-1) false in
  throttle_scale (Nat.iter 30 increase_max_throttle s) = 1 /\
  throttle_scale (Nat.iter 30 decrease_max_throttle s) = 0.5.
Proof.
  intros s.
  exact (throttle_scale_stays_on_grid s 80 30 ltac:(lia) eq_refl).
Defined.

End ScaleGrid.

(** ** The emergency stop from a scale in hundredths *)

Section EstopGrid.

Import JoystickController.
Local Open Scope float_scope.

Lemma ramp_length_spec (fuel : nat) (t : float) (n : nat) :
  ramp_length fuel t = Some n ->
  (forall k, (1 <= k <= n)%nat -> (0 <=? ramp k t) = false) /\
  (0 <=? ramp (S n) t) = true.
Proof.
  revert t n. induction fuel as [| fuel IH]; intros t n H; [discriminate |].
  cbn [ramp_length] in H.
  destruct (0 <=? t + 0.05) eqn:C.
  - injection H as <-. split; [intros k Hk; lia | exact C].
  - destruct (ramp_length fuel (t + 0.05)) as [m |] eqn:R; [| discriminate].
    injection H as <-. destruct (IH _ _ R) as [Hneg Hend]. split.
    + intros k Hk. destruct k as [| [| k]]; [lia | exact C |].
      change (ramp (S (S k)) t) with (ramp (S k) t + 0.05).
      rewrite <- ramp_shift. apply Hneg. lia.
    + change (ramp (S (S m)) t) with (ramp (S m) t + 0.05).
      rewrite <- ramp_shift. exact Hend.
Qed.

(** The length of the ramp from each of the 101 hundredths. *)
Lemma ramp_length_hundredths (n : nat) :
  (n <= 100)%nat ->
  exists m,
    ramp_length 21 (-1.0 * hundredth (Z.of_nat n)) = Some m /\
    ((Z.of_nat n - 1) / 5 <= Z.of_nat m <= Z.of_nat n / 5)%Z.
Proof.
  intros H.
  do 101 (destruct n as [| n];
          [vm_compute; eexists; split;
           [reflexivity | split; discriminate] |]).
  lia.
Qed.

(** From a throttle scale of [k] hundredths, [0 <= k <= 100], the emergency
    stop always comes to its end: [ES_IDLE] is reached with throttle 0.0
    after exactly [4 + m] ticks and not before, where [m], the number of
    steps of the ramp that stay below zero, is [(k - 1) / 5] or [k / 5]
    (integer division).  Every output on the way has angle 0.0 and recording
    [false]. *)
Theorem estop_ends_on_grid (s : t) (k : Z) :
  (0 <= k <= 100)%Z ->
  estop_state s = ES_START ->
  throttle_scale s = hundredth k ->
  exists m : nat,
    ((k - 1) / 5 <= Z.of_nat m <= k / 5)%Z /\
    estop_state (snd (ticks (4 + m) s)) = ES_IDLE /\
    throttle (snd (ticks (4 + m) s)) = 0 /\
    map out_angle (fst (ticks (4 + m) s)) = repeat 0 (4 + m) /\
    map out_recording (fst (ticks (4 + m) s)) = repeat false (4 + m) /\
    forall j, (j < 4 + m)%nat -> estop_state (snd (ticks j s)) <> ES_IDLE.
Proof.
  intros K E H.
  destruct (ramp_length_hundredths (Z.to_nat k) ltac:(lia)) as [m [R B]].
  rewrite Z2Nat.id in R, B by lia.
  destruct (ramp_length_spec _ _ _ R) as [Hneg Hend].
  rewrite <- H in Hneg, Hend.
  pose proof (estop_reaches_idle s m E Hneg Hend) as P.
  exists m. split; [exact B |].
  destruct (ticks (4 + m) s) as [outs s'].
  destruct P as [P1 [P2 [P3 [P4 [_ P6]]]]].
  repeat split; assumption.
Qed.

Lemma estop_ends_on_grid_witness :
  let s := emergency_stop (init 0.8 1 (-1) false) in
  exists m : nat,
    ((80 - 1) / 5 <= Z.of_nat m <= 80 / 5)%Z /\
    estop_state (snd (ticks (4 + m) s)) = ES_IDLE /\
    throttle (snd (ticks (4 + m) s)) = 0 /\
    map out_angle (fst (ticks (4 + m) s)) = repeat 0 (4 + m) /\
    map out_recording (fst (ticks (4 + m) s)) = repeat false (4 + m) /\
    forall j, (j < 4 + m)%nat -> estop_state (snd (ticks j s)) <> ES_IDLE.
Proof.
  intros s.
  exact (estop_ends_on_grid s 80 ltac:(lia) eq_refl eq_refl).
Defined.

End EstopGrid.

(** ** What the controls do *)

Section Controls.

Import JoystickController LogitechJoystickController.
Local Open Scope float_scope.

(** The D-pad axis steps the throttle scale at its two end positions only:
    of all raw 16-bit values, -32767 (the axis value -1.0) steps it up and
    32767 (1.0) steps it down; every other value, -32768 among them, does
    nothing.  The left-right D-pad axis never does anything. *)
Theorem dpad_steps_at_end_positions (s : t) (v : Z) :
  (-32768 <= v <= 32767)%Z ->
  exists f,
    Py.truediv_float (PyInt v) 32767 = Ok f /\
    dispatch s (None, None, Some "dpad_up_down"%string, Some f)
      = (if (v =? -32767)%Z then increase_max_throttle s
         else if (v =? 32767)%Z then decrease_max_throttle s
         else s) /\
    dispatch s (None, None, Some "dpad_leftright"%string, Some f) = s.
Proof.
  intros H.
  destruct (axis_value_facts v H) as [f [D [_ [_ [_ [F4 [F5 _]]]]]]].
  exists f. split; [exact D |].
  unfold dispatch.
  change (axis_trigger_map !! "dpad_up_down"%string)
    with (Some On_axis_dpad_UD).
  change (axis_trigger_map !! "dpad_leftright"%string)
    with (Some On_axis_dpad_LR).
  cbn [call_axis]. unfold on_axis_dpad_UD, on_axis_dpad_LR.
  rewrite F4, F5. split; reflexivity.
Qed.

Lemma dpad_steps_at_end_positions_witness :
  exists f,
    Py.truediv_float (PyInt (-32767)) 32767 = Ok f /\
    dispatch (init 0.8 1 (-1) false)
      (None, None, Some "dpad_up_down"%string, Some f)
      = increase_max_throttle (init 0.8 1 (-1) false) /\
    dispatch (init 0.8 1 (-1) false)
      (None, None, Some "dpad_leftright"%string, Some f)
      = init 0.8 1 (-1) false.
Proof.
  exact (dpad_steps_at_end_positions (init 0.8 1 (-1) false) (-32767)
           ltac:(lia)).
Defined.

Lemma call_axis_recording (op : axis_op) (s : t) (v : float) :
  auto_record_on_throttle s = false ->
  recording (call_axis op s v) = recording s /\
  auto_record_on_throttle (call_axis op s v) = false.
Proof.
  intros A. destruct op; cbn [call_axis];
    unfold set_steering, set_throttle, on_axis_dpad_LR, on_axis_dpad_UD,
      increase_max_throttle, decrease_max_throttle, on_throttle_changes;
    cbn [constant_throttle with_throttle_scale with_throttle with_angle
         with_last_throttle_axis_val auto_record_on_throttle];
    rewrite ?A; try (split; [reflexivity | first [exact A | reflexivity]]).
  destruct (v =? -1.0); [| destruct (v =? 1.0)];
    destruct (constant_throttle s);
    cbn [auto_record_on_throttle with_throttle]; rewrite ?A;
    (split; [reflexivity | first [exact A | reflexivity]]).
Qed.

Lemma call_button_recording (op : button_op) (s : t) :
  auto_record_on_throttle s = false ->
  recording (call_button op s) =
    match op with
    | Emergency_stop => false
    | Toggle_manual_recording => negb (recording s)
    | _ => recording s
    end.
Proof.
  intros A. destruct op; cbn [call_button];
    unfold toggle_mode, toggle_manual_recording, emergency_stop,
      toggle_constant_throttle, on_throttle_changes;
    cbn [constant_throttle with_throttle with_constant_throttle
         auto_record_on_throttle];
    rewrite ?A; try reflexivity.
  - destruct (String.eqb (mode s) "user");
      [| destruct (String.eqb (mode s) "local_angle")]; reflexivity.
  - destruct (recording s); reflexivity.
  - destruct (constant_throttle s); cbn [auto_record_on_throttle
      with_throttle with_constant_throttle]; rewrite ?A; reflexivity.
Qed.

(** With [auto_record_on_throttle] off, as [js_drive.py] constructs the
    controller, the recording flag is in the driver's hands alone: of all
    events only a press of A (the emergency stop) clears it and a press of B
    toggles it; no axis movement, no other button and no release changes
    it. *)
Theorem recording_changes_by_hand (s : t) (ev : Joystick.event) :
  auto_record_on_throttle s = false ->
  recording (dispatch s ev) =
    if pressed ev "A" then false
    else if pressed ev "B" then negb (recording s)
    else recording s.
Proof.
  intros A. destruct ev as [[[button st] axis] av]. unfold dispatch.
  set (s1 := match axis, av with
             | Some a, Some v =>
                 match axis_trigger_map !! a with
                 | Some op => call_axis op s v
                 | None => s
                 end
             | _, _ => s
             end).
  assert (H1 : recording s1 = recording s /\
               auto_record_on_throttle s1 = false).
  { unfold s1. destruct axis as [a |], av as [v |];
      try (split; [reflexivity | exact A]).
    destruct (axis_trigger_map !! a);
      [apply call_axis_recording; exact A | split; [reflexivity | exact A]]. }
  clearbody s1. destruct H1 as [R1 A1]. rewrite <- R1.
  unfold pressed.
  destruct button as [b |]; [| reflexivity].
  destruct st as [v |]; [| reflexivity].
  destruct (Z.leb_spec 1 v) as [P | P].
  - (* a press: the release triggers are not looked at *)
    replace (v =? 0)%Z with false by (symmetry; apply Z.eqb_neq; lia).
    rewrite !andb_true_r, andb_false_r.
    destruct (Joystick.truthy b) eqn:T.
    + cbn [andb].
      destruct (button_down_trigger_map !! b) as [op |] eqn:L.
      * rewrite (call_button_recording op s1 A1).
        apply elem_of_list_to_map_2 in L.
        repeat (apply elem_of_cons in L as [L | L];
                [injection L as -> ->; reflexivity |]).
        inversion L.
      * destruct (String.eqb_spec b "A") as [-> | _]; [discriminate L |].
        destruct (String.eqb_spec b "B") as [-> | _]; [discriminate L |].
        reflexivity.
    + destruct b; [reflexivity | discriminate T].
  - (* no press: at most a release trigger, which is [chaos_monkey_off] *)
    rewrite !andb_false_r.
    destruct (Joystick.truthy b && (v =? 0)%Z); [| reflexivity].
    destruct (button_up_trigger_map !! b) as [op |] eqn:L; [| reflexivity].
    apply elem_of_list_to_map_2 in L.
    repeat (apply elem_of_cons in L as [L | L];
            [injection L as -> ->; reflexivity |]).
    inversion L.
Qed.

Lemma recording_changes_by_hand_witness :
  let s := init 0.8 1 (-1) false in
  recording (dispatch s (Some "B"%string, Some 1%Z, None, None)) = true /\
  recording (dispatch s (None, None, Some "left_stick_vert"%string,
                         Some (-1)))
    = false.
Proof.
  intros s. split.
  - exact (recording_changes_by_hand s
             (Some "B"%string, Some 1%Z, None, None) eq_refl).
  - exact (recording_changes_by_hand s
             (None, None, Some "left_stick_vert"%string, Some (-1)) eq_refl).
Defined.

End Controls.

(** ** The polling thread *)

Section UpdateLoop.

Import JoystickController LogitechJoystickController.
Local Open Scope float_scope.

Lemma dispatch_no_event (self : t) : dispatch self Joystick.no_event = self.
Proof. reflexivity. Qed.

Lemma update_loop_unopened (n : nat) (self : t) (js : Joystick.t) :
  Joystick.jsdev js = None -> update_loop n self js = (None, self, js).
Proof.
  intros O. induction n as [| n IH]; [reflexivity |].
  cbn [update_loop]. unfold Joystick.poll. rewrite O.
  rewrite dispatch_no_event. exact IH.
Qed.

(** A joystick that is missing when the thread starts is never looked for
    again: when [init] finds no device file (or no [fcntl] module) it
    returns [False], but [init_js] drops that result and reports success,
    so that the waiting loop is left at once, with a joystick object that
    was never opened; from then on every round of the polling loop gets no
    event and leaves the controller as it is.  Only the
    [FileNotFoundError] of [open] makes the waiting loop try again, and a
    device that is there is opened at the first try. *)
Theorem missing_joystick_is_not_retried (rest : list Joystick.host)
    (dev : Joystick.device) (n : nat) (self : t) :
  wait_for_js (Joystick.Missing :: rest) None
    = (Some Joystick.logitech, rest) /\
  wait_for_js (Joystick.No_fcntl :: rest) None
    = (Some Joystick.logitech, rest) /\
  update_loop n self Joystick.logitech = (None, self, Joystick.logitech) /\
  wait_for_js (Joystick.Vanished :: rest) None = wait_for_js rest None /\
  wait_for_js (Joystick.Present dev :: rest) None
    = (Some (Joystick.init Joystick.logitech dev), rest).
Proof.
  repeat split; try reflexivity.
  apply update_loop_unopened. reflexivity.
Qed.

(** The records of the initial state report pass through the polling loop
    without a trace: [k] rounds on a device that starts with [k] such
    records read exactly these [8 * k] bytes, raise nothing and leave the
    controller as it was. *)
Theorem update_ignores_init_records (k : nat) (self : t) (js : Joystick.t)
    (dev : list Byte.byte) :
  Joystick.jsdev js = Some dev ->
  init_records k dev = true ->
  update_loop k self js
    = (None, self, Joystick.with_jsdev js (Some (skipn (8 * k) dev))).
Proof.
  revert js dev. induction k as [| k IH]; intros js dev O I.
  - cbn [update_loop Nat.mul skipn]. destruct js; cbn in O; subst.
    reflexivity.
  - cbn [init_records] in I.
    destruct dev as [| b0 [| b1 [| b2 [| b3 [| b4 [| b5 [| b6 [| b7 rest]]]]]]]];
      try discriminate I.
    apply andb_prop in I as [F I].
    cbn [update_loop].
    rewrite (poll_reads_record js b0 b1 b2 b3 b4 b5 b6 b7 rest O).
    cbv zeta. rewrite F. rewrite dispatch_no_event.
    rewrite (IH (Joystick.with_jsdev js (Some rest)) rest eq_refl I).
    replace (8 * S k)%nat with (8 + 8 * k)%nat by lia.
    reflexivity.
Qed.

Lemma update_ignores_init_records_witness :
  let dev := [Byte.x10; Byte.x27; Byte.x00; Byte.x00;
              Byte.x00; Byte.x00; Byte.x81; Byte.x00;
              Byte.x10; Byte.x27; Byte.x00; Byte.x00;
              Byte.xff; Byte.x7f; Byte.x82; Byte.x00;
              Byte.x20; Byte.x27; Byte.x00; Byte.x00;
              Byte.x01; Byte.x00; Byte.x01; Byte.x00] in
  let self := init 0.8 1 (-1) false in
  update_loop 2 self (sample_joystick dev)
    = (None, self,
       Joystick.with_jsdev (sample_joystick dev) (Some (skipn 16 dev))).
Proof.
  intros dev self.
  exact (update_ignores_init_records 2 self (sample_joystick dev) dev
           eq_refl eq_refl).
Defined.

Lemma update_loop_app (k m : nat) (self : t) (js : Joystick.t) :
  update_loop (k + m) self js =
    match update_loop k self js with
    | (None, self', js') => update_loop m self' js'
    | (Some e, self', js') => (Some e, self', js')
    end.
Proof.
  revert self js. induction k as [| k IH]; intros self js; [reflexivity |].
  cbn [Nat.add update_loop].
  destruct (Joystick.poll js) as [[ev | e] js']; [apply IH | reflexivity].
Qed.

(** An exception of [poll] ends the polling thread: if after [k] rounds the
    next [poll] raises, then however many rounds are asked for beyond [k],
    the loop ends with that exception, with the controller as the [k]
    rounds left it; nothing that the device delivers later is read. *)
Theorem update_stops_at_exception (k m : nat) (self self' : t)
    (js js' : Joystick.t) (e : exn) :
  update_loop k self js = (None, self', js') ->
  fst (Joystick.poll js') = Raise e ->
  update_loop (k + S m) self js = (Some e, self', snd (Joystick.poll js')).
Proof.
  intros K P. rewrite update_loop_app, K. cbn [update_loop].
  destruct (Joystick.poll js') as [[ev | e'] js'']; cbn [fst snd] in P |- *;
    [discriminate P | injection P as ->; reflexivity].
Qed.

Lemma update_stops_at_exception_witness :
  let dev := [Byte.x10; Byte.x27; Byte.x00; Byte.x00;
              Byte.x01; Byte.x00; Byte.x01; Byte.x00;
              Byte.x20; Byte.x27; Byte.x00; Byte.x00;
              Byte.x01; Byte.x00; Byte.x01; Byte.x05;
              Byte.x30; Byte.x27; Byte.x00; Byte.x00;
              Byte.x00; Byte.x00; Byte.x01; Byte.x00] in
  let self := init 0.8 1 (-1) false in
  exists js',
    update_loop 1 self (sample_joystick dev)
      = (None, emergency_stop self, js') /\
    update_loop (1 + 3) self (sample_joystick dev)
      = (Some IndexError, emergency_stop self, snd (Joystick.poll js')) /\
    Joystick.jsdev (snd (Joystick.poll js')) = Some (skipn 16 dev).
Proof.
  intros dev self. eexists.
  split; [reflexivity |].
  split; [| reflexivity].
  apply (update_stops_at_exception 1 2 self (emergency_stop self)
           (sample_joystick dev)); reflexivity.
Defined.

End UpdateLoop.

Section EmergencyButton.

Import JoystickController LogitechJoystickController.
Local Open Scope float_scope.

Variable dev : Joystick.device.
Variables b0 b1 b2 b3 b4 b5 b6 b7 : Byte.byte.
Variable rest : list Byte.byte.
Variable self : t.

Let value : Z :=
  (let raw := Joystick.u8 b4 + 2 ^ 8 * Joystick.u8 b5 in
   if raw <? 2 ^ 15 then raw else raw - 2 ^ 16)%Z.
Let typev : Z := Joystick.u8 b6.
Let number : Z := Joystick.u8 b7.


End EmergencyButton.

Section EmergencyButtonFacts.

Import JoystickController LogitechJoystickController.
Local Open Scope float_scope.


End EmergencyButtonFacts.
